(** * GPy.core.gp : the Gaussian-process model class

    A shallow embedding of [src/GPy/core/gp.py] (class [GP]): the
    constructor, [parameters_changed], [log_likelihood],
    [_raw_predict], [predict], [posterior_samples_f],
    [posterior_samples], [getstate], [setstate] and the part of [plot]
    that chooses a frame, together with the fragment of NumPy they
    call.

    Conventions.
    - Scalars are an abstract type [F] with the arithmetic of a field
      (class [Scalar]); rounding of float64 is not modelled, sums are
      taken left to right.
    - A NumPy array is its shape and its row-major buffer ([ndarray]).
    - Python exceptions are values ([exn]); a call either returns or
      raises ([result]); methods run in a state-and-exception monad
      ([Py]) over the object [self], the standard output and the state
      of [np.random].
    - The names a function reads from the module namespace are looked
      up in a [namespace]; [gp_namespace] is the namespace that the
      import statements of gp.py build. *)

From Stdlib Require Import String.
From Stdlib Require Import List Arith Lia ZArith Bool Field QArith Qcanon.
From Stdlib Require Import Permutation Sorted FinFun.
Import ListNotations.
Open Scope nat_scope.

Set Implicit Arguments.

(* ================================================================= *)
(** ** Python exceptions and results *)

Inductive exn : Type :=
| AssertionError (msg : string)
| NameError (name : string)
| AttributeError (msg : string)
| ValueError (msg : string)
| IndexError (msg : string)
| NotImplementedError (msg : string)
| LinAlgError (msg : string).

Inductive result (A : Type) : Type :=
| Return (a : A)
| Raise (e : exn).

Arguments Return {A} a.
Arguments Raise {A} e.

(** The error kinds of the specification (section 7). *)
Inductive error_kind : Type :=
| InvalidArgument
| Unsupported
| NumericalInstabilityError.

(** Modelled from the spec: the correspondence between the exceptions
    the Python code raises on purpose and the error kinds of section 7.
    A failed [assert] or a [ValueError] / [IndexError] on an argument is
    an InvalidArgument; [NotImplementedError] is Python's Unsupported;
    a failed factorisation is a NumericalInstabilityError.  A
    [NameError] or an [AttributeError] is a programming error and
    belongs to no kind. *)
Definition kind_of (e : exn) : option error_kind :=
  match e with
  | AssertionError _ => Some InvalidArgument
  | ValueError _ => Some InvalidArgument
  | IndexError _ => Some InvalidArgument
  | NotImplementedError _ => Some Unsupported
  | LinAlgError _ => Some NumericalInstabilityError
  | NameError _ => None
  | AttributeError _ => None
  end.

Definition raises_kind {A : Type} (r : result A) (k : error_kind) : bool :=
  match r with
  | Return _ => false
  | Raise e =>
      match kind_of e, k with
      | Some InvalidArgument, InvalidArgument => true
      | Some Unsupported, Unsupported => true
      | Some NumericalInstabilityError, NumericalInstabilityError => true
      | _, _ => false
      end
  end.

(* ================================================================= *)
(** ** Scalars *)

Class Scalar (F : Type) : Type := {
  F0 : F;
  F1 : F;
  Fadd : F -> F -> F;
  Fmul : F -> F -> F;
  Fsub : F -> F -> F;
  Fopp : F -> F;
  Fdiv : F -> F -> F;
  Finv : F -> F
}.

(** Exact rational arithmetic, the instance on which the examples run. *)
#[export] Instance Qc_Scalar : Scalar Qc := {
  F0 := 0%Qc;
  F1 := 1%Qc;
  Fadd := Qcplus;
  Fmul := Qcmult;
  Fsub := Qcminus;
  Fopp := Qcopp;
  Fdiv := Qcdiv;
  Finv := Qcinv
}.

(* ================================================================= *)
(** ** NumPy arrays *)

Section Numpy.
Context {F : Type} {SF : Scalar F}.

(** [numpy.ndarray]: the shape tuple and the row-major buffer. *)
Record ndarray : Type := mk_ndarray {
  shape : list nat;
  data : list F
}.

Definition ndim (a : ndarray) : nat := length (shape a).

(** [a.size] *)
Definition size (a : ndarray) : nat := length (data a).

(** [a.shape[0]] and [a.shape[1]] *)
Definition rows (a : ndarray) : nat := nth 0 (shape a) 0.
Definition cols (a : ndarray) : nat := nth 1 (shape a) 0.

(** [a[i]] of a 1-D array and [a[i, j]] of a 2-D array. *)
Definition item1 (a : ndarray) (i : nat) : F := nth i (data a) F0.
Definition item2 (a : ndarray) (i j : nat) : F := nth (i * cols a + j) (data a) F0.

(** [a[i, :]] as a list. *)
Definition row (a : ndarray) (i : nat) : list F :=
  map (item2 a i) (seq 0 (cols a)).

(** The array whose entries are given by a function of the index. *)
Definition tabulate1 (n : nat) (f : nat -> F) : ndarray :=
  mk_ndarray [n] (map f (seq 0 n)).

Definition tabulate2 (r c : nat) (f : nat -> nat -> F) : ndarray :=
  mk_ndarray [r; c] (flat_map (fun i => map (f i) (seq 0 c)) (seq 0 r)).

(** Sum of [f 0 .. f (n-1)], accumulated from the left. *)
Definition fsum (n : nat) (f : nat -> F) : F :=
  fold_left (fun acc k => Fadd acc (f k)) (seq 0 n) F0.

(** [a.T] of a 2-D array; arrays of rank below two are their own
    transpose.  (No array of higher rank occurs in gp.py's calls.) *)
Definition transpose (a : ndarray) : ndarray :=
  if ndim a =? 2 then tabulate2 (cols a) (rows a) (fun i j => item2 a j i) else a.

(** [np.asfortranarray]: a change of memory layout only. *)
Definition asfortranarray (a : ndarray) : ndarray := a.

Definition shape_eqb (s t : list nat) : bool :=
  if list_eq_dec Nat.eq_dec s t then true else false.

(** [np.dot(a, b)] for a 2-D [a] and a 2-D or 1-D [b]; NumPy raises
    ValueError when the inner dimensions differ.  Other ranks are
    outside this model and are reported as ValueError as well. *)
Definition np_dot (a b : ndarray) : result ndarray :=
  if (ndim a =? 2) && (ndim b =? 2) then
    if cols a =? rows b then
      Return (tabulate2 (rows a) (cols b)
                (fun i j => fsum (cols a) (fun k => Fmul (item2 a i k) (item2 b k j))))
    else Raise (ValueError "shapes not aligned")
  else if (ndim a =? 2) && (ndim b =? 1) then
    if cols a =? rows b then
      Return (tabulate1 (rows a)
                (fun i => fsum (cols a) (fun k => Fmul (item2 a i k) (item1 b k))))
    else Raise (ValueError "shapes not aligned")
  else Raise (ValueError "np.dot: rank outside the model").

Fixpoint zip_with (f : F -> F -> F) (x y : list F) : list F :=
  match x, y with
  | a :: x', b :: y' => f a b :: zip_with f x' y'
  | _, _ => []
  end.

(** Elementwise [a * b], [a - b] and [a + b] of arrays of equal shape.
    Operands of different shapes raise ValueError (NumPy would first try
    to broadcast singleton axes; gp.py never relies on that here). *)
Definition elementwise (f : F -> F -> F) (a b : ndarray) : result ndarray :=
  if shape_eqb (shape a) (shape b) then
    Return (mk_ndarray (shape a) (zip_with f (data a) (data b)))
  else Raise (ValueError "operands could not be broadcast together").

Definition np_mul : ndarray -> ndarray -> result ndarray := elementwise Fmul.
Definition np_sub : ndarray -> ndarray -> result ndarray := elementwise Fsub.
Definition np_add : ndarray -> ndarray -> result ndarray := elementwise Fadd.

(** [np.sum(a, 0)] of a 2-D array: the sums down the columns. *)
Definition np_sum_axis0 (a : ndarray) : ndarray :=
  tabulate1 (cols a) (fun j => fsum (rows a) (fun i => item2 a i j)).

(** [a.reshape(-1, 1)] and [a.flatten()]. *)
Definition reshape_col (a : ndarray) : ndarray := mk_ndarray [size a; 1] (data a).
Definition flatten (a : ndarray) : ndarray := mk_ndarray [size a] (data a).

(** [a.reshape(n, -1)]: ValueError unless [n] divides [a.size]. *)
Definition reshape_rows (a : ndarray) (n : nat) : result ndarray :=
  if (n =? 0) || negb (size a mod n =? 0) then
    Raise (ValueError "cannot reshape array")
  else Return (mk_ndarray [n; size a / n] (data a)).

(** [np.diag(v)] of a 1-D array. *)
Definition np_diag (v : ndarray) : ndarray :=
  tabulate2 (size v) (size v) (fun i j => if i =? j then item1 v i else F0).

(** Modelled from the spec: the triangular solver [dtrtrs] of
    GPy.util.linalg (not part of gp.py), called as
    [dtrtrs(A, B, lower=1)].  Section 4.2 step 2: solve [A . Z = B] for
    [Z] by forward substitution, never inverting [A].  Only the lower
    triangle of [A] is read.  [forward_col A b n] is the first [n]
    entries of the solution for the right-hand-side column [b]. *)
Fixpoint forward_col (A : ndarray) (b : nat -> F) (n : nat) : list F :=
  match n with
  | 0 => []
  | S i =>
      let z := forward_col A b i in
      z ++ [Fdiv (Fsub (b i) (fsum i (fun k => Fmul (item2 A i k) (nth k z F0))))
                 (item2 A i i)]
  end.

(** The wrapper returns the pair (solution, LAPACK status); gp.py
    discards the status. *)
Definition dtrtrs (A B : ndarray) : ndarray * Z :=
  (tabulate2 (rows B) (cols B)
     (fun i j => nth i (forward_col A (fun k => item2 B k j) (rows B)) F0),
   0%Z).

End Numpy.

Arguments ndarray F : clear implicits.

(** The part of NumPy that gp.py calls and that is not arithmetic: the
    square root and the generator behind [np.random].  A draw is a
    function of the generator state and of the parameters of the call;
    every call advances the state. *)
Class NumpyRandom (F : Type) : Type := {
  RandomState : Type;
  advance : RandomState -> RandomState;
  np_sqrt : F -> F;
  multivariate_normal_entry :
    RandomState -> ndarray F -> ndarray F -> nat -> nat -> F;
  normal_entry : RandomState -> F -> F -> nat -> nat -> F
}.

(* ================================================================= *)
(** ** The state-and-exception monad of a method call *)

(** A computation over a world [W]: it returns or raises, and the
    world it leaves behind is kept in both cases (an assignment made
    before an exception stays made). *)
Definition SE (W A : Type) : Type := W -> result A * W.

Definition ret {W A : Type} (a : A) : SE W A := fun w => (Return a, w).

Definition raise {W A : Type} (e : exn) : SE W A := fun w => (Raise e, w).

Definition bind {W A B : Type} (c : SE W A) (k : A -> SE W B) : SE W B :=
  fun w =>
    match c w with
    | (Return a, w') => k a w'
    | (Raise e, w') => (Raise e, w')
    end.

Definition lift {W A : Type} (r : result A) : SE W A := fun w => (r, w).

Definition gets {W A : Type} (f : W -> A) : SE W A := fun w => (Return (f w), w).

Definition modify {W : Type} (f : W -> W) : SE W unit := fun w => (Return tt, f w).

(** [assert cond, msg] *)
Definition py_assert {W : Type} (cond : bool) (msg : string) : SE W unit :=
  if cond then ret tt else raise (AssertionError msg).

(** Reading a global name: NameError when the module does not bind it. *)
Definition global {W A : Type} (name : string) (binding : option A) : SE W A :=
  match binding with
  | Some v => ret v
  | None => raise (NameError name)
  end.

Notation "x <- c ;; k" := (bind c (fun x => k))
  (at level 61, c at next level, right associativity).
Notation "' pat <- c ;; k" := (bind c (fun x => match x with pat => k end))
  (at level 61, pat pattern, c at next level, right associativity).
Notation "c ;; k" := (bind c (fun _ => k))
  (at level 61, right associativity).

(* ================================================================= *)
(** ** The collaborators of the model *)

Section Model.
Context {F : Type} {SF : Scalar F} {NR : NumpyRandom F}.

(** The [which_parts] argument: ['all'] or a list of bools. *)
Inductive which_parts : Type :=
| all
| parts (sel : list bool).

(** Modelled from the spec: the kernel library ([GPy.kern], the
    CovarianceProvider of section 6) is not part of gp.py.  A kernel is
    its covariance function; [K(A, B)] tabulates it over the rows of
    [A] and [B], [K(A)] is [K(A, A)], and [Kdiag(A)] is the diagonal of
    [K(A)]. *)
Record kern : Type := {
  kfun : which_parts -> list F -> list F -> F
}.

Definition kern_K (k : kern) (A : ndarray F) (X2 : option (ndarray F))
  (wp : which_parts) : ndarray F :=
  let B := match X2 with Some B => B | None => A end in
  tabulate2 (rows A) (rows B) (fun i j => kfun k wp (row A i) (row B j)).

Definition kern_Kdiag (k : kern) (A : ndarray F) (wp : which_parts) : ndarray F :=
  tabulate1 (rows A) (fun i => kfun k wp (row A i) (row A i)).

(** The likelihood classes that gp.py tells apart with [isinstance]. *)
Inductive likelihood_class : Type :=
| cls_Gaussian
| cls_Gaussian_Mixed_Noise
| cls_other (name : string).

Definition likelihood_class_eqb (c d : likelihood_class) : bool :=
  match c, d with
  | cls_Gaussian, cls_Gaussian => true
  | cls_Gaussian_Mixed_Noise, cls_Gaussian_Mixed_Noise => true
  | cls_other n, cls_other m => String.eqb n m
  | _, _ => false
  end.

(** Keyword arguments passed through to the likelihood. *)
Definition kwargs : Type := list (string * string).

(** Modelled from the spec: the likelihood library (the
    LikelihoodProvider of section 6), seen through what gp.py calls:
    its class, [_get_params()], [predictive_values] (a function of its
    arguments) and [noise_model.samples]. *)
Record Likelihood : Type := {
  lik_class : likelihood_class;
  _get_params : ndarray F;
  predictive_values :
    ndarray F -> ndarray F -> bool -> kwargs ->
    result (ndarray F * ndarray F * ndarray F * ndarray F);
  noise_model_samples : RandomState -> ndarray F -> result (ndarray F)
}.

Definition isinstance (l : Likelihood) (c : likelihood_class) : bool :=
  likelihood_class_eqb (lik_class l) c.

(** The Posterior object, as section 3 of the spec lists its fields. *)
Record Posterior : Type := {
  _woodbury_chol : ndarray F;
  _woodbury_vector : ndarray F;
  log_marginal : F;
  dL_dK : ndarray F;
  dL_dtheta_lik : ndarray F
}.

(** An inference engine: an object with an [inference] method, which
    returns a Posterior or raises.  [repr] is what [print] shows. *)
Record Inference : Type := {
  repr : string;
  inference : ndarray F -> Likelihood -> ndarray F -> result Posterior
}.

(** What a caller may pass for [kernel] and [likelihood]. *)
Inductive pyobject : Type :=
| obj_kern (k : kern)
| obj_likelihood (l : Likelihood)
| obj_other (name : string).

(** The names of the module namespace that the methods read.
    [exact_gaussian_inference] is bound by the import on line 14; the
    other three are read on lines 53, 88 and 164. *)
Record namespace : Type := {
  exact_gaussian_inference : Inference;
  ns_expectation_propagation : option Inference;
  ns_tdot : option (ndarray F -> result (ndarray F));
  ns_Gaussian_Mixed_Noise : option likelihood_class
}.

(** The namespace of gp.py as its import statements (lines 4-14) build
    it: [np], [pb], [warnings], [kern], [gpplot], [Tango], [x_frame1D],
    [x_frame2D], [dtrtrs], [Model], [ObservableArray], [likelihoods],
    [Gaussian], [exact_gaussian_inference].  Neither
    [expectation_propagation] nor [tdot] nor [Gaussian_Mixed_Noise] is
    among them. *)
Definition gp_namespace (ExactGaussianInference : Inference) : namespace :=
  {| exact_gaussian_inference := ExactGaussianInference;
     ns_expectation_propagation := None;
     ns_tdot := None;
     ns_Gaussian_Mixed_Noise := None |}.

(** [tdot] as GPy.util.linalg defines it: [tdot(A) = A . A^T]. *)
Definition linalg_tdot (A : ndarray F) : result (ndarray F) :=
  np_dot A (transpose A).

(* ================================================================= *)
(** ** The GP object *)

(** The attributes of a [GP] instance; [None] is an attribute that has
    not been assigned yet.  [gp_inference_method] holds a Python value
    that may itself be [None]. *)
Record GP : Type := {
  gp_X : option (ndarray F);
  gp_num_data : option nat;
  gp_input_dim : option nat;
  gp_Y : option (ndarray F);
  gp_output_dim : option nat;
  gp_kern : option kern;
  gp_likelihood : option Likelihood;
  gp_inference_method : option (option Inference);
  gp_K : option (ndarray F);
  gp_posterior : option Posterior
}.

(** A freshly allocated instance. *)
Definition new_GP : GP :=
  {| gp_X := None; gp_num_data := None; gp_input_dim := None; gp_Y := None;
     gp_output_dim := None; gp_kern := None; gp_likelihood := None;
     gp_inference_method := None; gp_K := None; gp_posterior := None |}.

(** What a method call can read and write. *)
Record world : Type := {
  self : GP;
  stdout : list string;
  np_random : RandomState
}.

Definition Py (A : Type) : Type := SE world A.

Definition with_self (f : GP -> GP) (w : world) : world :=
  {| self := f (self w); stdout := stdout w; np_random := np_random w |}.

(** [self.<name>]: AttributeError when the attribute is not set. *)
Definition attr {A : Type} (name : string) (proj : GP -> option A) : Py A :=
  fun w =>
    match proj (self w) with
    | Some v => (Return v, w)
    | None =>
        (Raise (AttributeError ("'GP' object has no attribute '" ++ name ++ "'")), w)
    end.

(** [print line] *)
Definition print (line : string) : Py unit :=
  modify (fun w => {| self := self w; stdout := stdout w ++ [line];
                      np_random := np_random w |}).

(** Attribute assignments [self.<name> = v]. *)
Definition set_X (v : ndarray F) : Py unit :=
  modify (with_self (fun g =>
    {| gp_X := Some v; gp_num_data := gp_num_data g; gp_input_dim := gp_input_dim g;
       gp_Y := gp_Y g; gp_output_dim := gp_output_dim g; gp_kern := gp_kern g;
       gp_likelihood := gp_likelihood g; gp_inference_method := gp_inference_method g;
       gp_K := gp_K g; gp_posterior := gp_posterior g |})).

Definition set_shape_X (n d : nat) : Py unit :=
  modify (with_self (fun g =>
    {| gp_X := gp_X g; gp_num_data := Some n; gp_input_dim := Some d;
       gp_Y := gp_Y g; gp_output_dim := gp_output_dim g; gp_kern := gp_kern g;
       gp_likelihood := gp_likelihood g; gp_inference_method := gp_inference_method g;
       gp_K := gp_K g; gp_posterior := gp_posterior g |})).

Definition set_Y (v : ndarray F) : Py unit :=
  modify (with_self (fun g =>
    {| gp_X := gp_X g; gp_num_data := gp_num_data g; gp_input_dim := gp_input_dim g;
       gp_Y := Some v; gp_output_dim := gp_output_dim g; gp_kern := gp_kern g;
       gp_likelihood := gp_likelihood g; gp_inference_method := gp_inference_method g;
       gp_K := gp_K g; gp_posterior := gp_posterior g |})).

Definition set_output_dim (m : nat) : Py unit :=
  modify (with_self (fun g =>
    {| gp_X := gp_X g; gp_num_data := gp_num_data g; gp_input_dim := gp_input_dim g;
       gp_Y := gp_Y g; gp_output_dim := Some m; gp_kern := gp_kern g;
       gp_likelihood := gp_likelihood g; gp_inference_method := gp_inference_method g;
       gp_K := gp_K g; gp_posterior := gp_posterior g |})).

Definition set_kern (k : kern) : Py unit :=
  modify (with_self (fun g =>
    {| gp_X := gp_X g; gp_num_data := gp_num_data g; gp_input_dim := gp_input_dim g;
       gp_Y := gp_Y g; gp_output_dim := gp_output_dim g; gp_kern := Some k;
       gp_likelihood := gp_likelihood g; gp_inference_method := gp_inference_method g;
       gp_K := gp_K g; gp_posterior := gp_posterior g |})).

Definition set_likelihood (l : Likelihood) : Py unit :=
  modify (with_self (fun g =>
    {| gp_X := gp_X g; gp_num_data := gp_num_data g; gp_input_dim := gp_input_dim g;
       gp_Y := gp_Y g; gp_output_dim := gp_output_dim g; gp_kern := gp_kern g;
       gp_likelihood := Some l; gp_inference_method := gp_inference_method g;
       gp_K := gp_K g; gp_posterior := gp_posterior g |})).

Definition set_inference_method (im : option Inference) : Py unit :=
  modify (with_self (fun g =>
    {| gp_X := gp_X g; gp_num_data := gp_num_data g; gp_input_dim := gp_input_dim g;
       gp_Y := gp_Y g; gp_output_dim := gp_output_dim g; gp_kern := gp_kern g;
       gp_likelihood := gp_likelihood g; gp_inference_method := Some im;
       gp_K := gp_K g; gp_posterior := gp_posterior g |})).

Definition set_K (v : ndarray F) : Py unit :=
  modify (with_self (fun g =>
    {| gp_X := gp_X g; gp_num_data := gp_num_data g; gp_input_dim := gp_input_dim g;
       gp_Y := gp_Y g; gp_output_dim := gp_output_dim g; gp_kern := gp_kern g;
       gp_likelihood := gp_likelihood g; gp_inference_method := gp_inference_method g;
       gp_K := Some v; gp_posterior := gp_posterior g |})).

Definition set_posterior (p : Posterior) : Py unit :=
  modify (with_self (fun g =>
    {| gp_X := gp_X g; gp_num_data := gp_num_data g; gp_input_dim := gp_input_dim g;
       gp_Y := gp_Y g; gp_output_dim := gp_output_dim g; gp_kern := gp_kern g;
       gp_likelihood := gp_likelihood g; gp_inference_method := gp_inference_method g;
       gp_K := gp_K g; gp_posterior := Some p |})).

(* ================================================================= *)
(** ** The methods of [GP] *)

(** [GP.parameters_changed] (lines 62-65).  The call to the superclass
    belongs to the parameter framework and touches none of the
    attributes modelled here. *)
Definition parameters_changed : Py unit :=
  k <- attr "kern" gp_kern ;;
  X <- attr "X" gp_X ;;
  set_K (kern_K k X None all) ;;
  im <- attr "inference_method" gp_inference_method ;;
  match im with
  | None => raise (AttributeError "'NoneType' object has no attribute 'inference'")
  | Some engine =>
      K <- attr "K" gp_K ;;
      l <- attr "likelihood" gp_likelihood ;;
      Y <- attr "Y" gp_Y ;;
      p <- lift (inference engine K l Y) ;;
      set_posterior p
  end.

(** [GP.log_likelihood] (lines 67-68). *)
Definition log_likelihood : Py F :=
  p <- attr "posterior" gp_posterior ;;
  ret (log_marginal p).

(** [GP.__init__] (lines 30-60).  [ObservableArray] is a view of its
    argument; [Model.__init__] and [add_parameter] belong to the
    parameter framework. *)
Definition __init__ (ns : namespace) (X Y : ndarray F) (kernel likelihood : pyobject)
  (inference_method : option Inference) : Py unit :=
  py_assert (ndim X =? 2) "" ;;
  set_X X ;;
  set_shape_X (rows X) (cols X) ;;
  py_assert (ndim Y =? 2) "" ;;
  set_Y Y ;;
  num_data <- attr "num_data" gp_num_data ;;
  py_assert (rows Y =? num_data) "" ;;
  set_output_dim (cols Y) ;;
  k <- match kernel with
       | obj_kern k => ret k
       | _ => raise (AssertionError "")
       end ;;
  set_kern k ;;
  l <- match likelihood with
       | obj_likelihood l => ret l
       | _ => raise (AssertionError "")
       end ;;
  set_likelihood l ;;
  im <- match inference_method with
        | None =>
            if isinstance l cls_Gaussian
            then ret (Some (exact_gaussian_inference ns))
            else ret None
        | Some _ =>
            ep <- global "expectation_propagation" (ns_expectation_propagation ns) ;;
            print ("defaulting to " ++ " " ++ repr ep ++ " "
                   ++ "for latent function inference") ;;
            ret (Some ep)
        end ;;
  set_inference_method im ;;
  parameters_changed.

(** [GP._raw_predict] (lines 73-93). *)
Definition _raw_predict (ns : namespace) (_Xnew : ndarray F) (wp : which_parts)
  (full_cov : bool) : Py (ndarray F * ndarray F) :=
  k <- attr "kern" gp_kern ;;
  X <- attr "X" gp_X ;;
  let Kx := transpose (kern_K k _Xnew (Some X) wp) in
  post <- attr "posterior" gp_posterior ;;
  let LiKx := fst (dtrtrs (_woodbury_chol post) (asfortranarray Kx)) in
  mu <- lift (np_dot (transpose Kx) (_woodbury_vector post)) ;;
  if full_cov then
    let Kxx := kern_K k _Xnew None wp in
    tdot <- global "tdot" (ns_tdot ns) ;;
    t <- lift (tdot (transpose LiKx)) ;;
    var <- lift (np_sub Kxx t) ;;
    ret (mu, var)
  else
    let Kxx := kern_Kdiag k _Xnew wp in
    sq <- lift (np_mul LiKx LiKx) ;;
    var <- lift (np_sub Kxx (np_sum_axis0 sq)) ;;
    ret (mu, reshape_col var).

(** [GP.predict] (lines 95-119). *)
Definition predict (ns : namespace) (Xnew : ndarray F) (wp : which_parts)
  (full_cov : bool) (likelihood_args : kwargs)
  : Py (ndarray F * ndarray F * ndarray F * ndarray F) :=
  '(mu, var) <- _raw_predict ns Xnew wp full_cov ;;
  l <- attr "likelihood" gp_likelihood ;;
  lift (predictive_values l mu var full_cov likelihood_args).

(** [np.random.multivariate_normal(mean, cov, size)]: NumPy checks the
    shapes first and then draws a [size]-by-[n] array. *)
Definition multivariate_normal (mean cov : ndarray F) (count : nat) : Py (ndarray F) :=
  if negb (ndim mean =? 1) then
    raise (ValueError "mean must be 1 dimensional")
  else if negb (ndim cov =? 2) || negb (rows cov =? cols cov) then
    raise (ValueError "cov must be 2 dimensional and square")
  else if negb (rows mean =? rows cov) then
    raise (ValueError "mean and cov must have same length")
  else
    fun w =>
      (Return (tabulate2 count (rows mean)
                 (multivariate_normal_entry (np_random w) mean cov)),
       {| self := self w; stdout := stdout w; np_random := advance (np_random w) |}).

(** [np.random.normal(0, scale, shape)] for a 2-D [shape]: [scale] is a
    scalar (a 0-D array), a one-entry array, or an array with one entry
    per column; anything else cannot be broadcast. *)
Definition normal (scale : ndarray F) (r c : nat) : Py (ndarray F) :=
  if (ndim scale =? 0) || ((ndim scale =? 1) && (size scale =? 1)) then
    fun w =>
      (Return (tabulate2 r c (normal_entry (np_random w) F0 (item1 scale 0))),
       {| self := self w; stdout := stdout w; np_random := advance (np_random w) |})
  else if (ndim scale =? 1) && (size scale =? c) then
    fun w =>
      (Return (tabulate2 r c
                 (fun i j => normal_entry (np_random w) F0 (item1 scale j) i j)),
       {| self := self w; stdout := stdout w; np_random := advance (np_random w) |})
  else raise (ValueError "shape mismatch: objects cannot be broadcast to a single shape").

(** [np.sqrt(a)] *)
Definition sqrt_array (a : ndarray F) : ndarray F :=
  mk_ndarray (shape a) (map np_sqrt (data a)).

(** [a[i]] for a 1-D array and a Python integer: negative indices
    count from the end; IndexError out of range.  The result is a
    scalar (0-D). *)
Definition index1 (a : ndarray F) (i : Z) : result (ndarray F) :=
  let n := Z.of_nat (size a) in
  if ((0 <=? i) && (i <? n))%Z then
    Return (mk_ndarray [] [item1 a (Z.to_nat i)])
  else if ((- n <=? i) && (i <? 0))%Z then
    Return (mk_ndarray [] [item1 a (Z.to_nat (n + i))])
  else Raise (IndexError "index out of bounds").

(** [GP.posterior_samples_f] (lines 121-142); the defaults are
    [size=10], [which_parts='all'], [full_cov=True]. *)
Definition posterior_samples_f (ns : namespace) (X : ndarray F) (count : nat)
  (wp : which_parts) (full_cov : bool) : Py (ndarray F) :=
  '(m, v) <- _raw_predict ns X wp full_cov ;;
  v <- (if ndim v =? 3 then lift (reshape_rows v (size m)) else ret v) ;;
  if negb full_cov then
    Ysim <- multivariate_normal (flatten m) (np_diag (flatten v)) count ;;
    ret (transpose Ysim)
  else
    Ysim <- multivariate_normal (flatten m) v count ;;
    ret (transpose Ysim).

(** [GP.posterior_samples] (lines 144-171); [noise_model] defaults to
    [None]. *)
Definition posterior_samples (ns : namespace) (X : ndarray F) (count : nat)
  (wp : which_parts) (full_cov : bool) (noise_model : option Z) : Py (ndarray F) :=
  Ysim <- posterior_samples_f ns X count wp full_cov ;;
  l <- attr "likelihood" gp_likelihood ;;
  if isinstance l cls_Gaussian then
    let noise_std := sqrt_array (_get_params l) in
    noise <- normal noise_std (rows Ysim) (cols Ysim) ;;
    lift (np_add Ysim noise)
  else
    mixed <- global "Gaussian_Mixed_Noise" (ns_Gaussian_Mixed_Noise ns) ;;
    if isinstance l mixed then
      match noise_model with
      | None => raise (AssertionError "A noise model must be specified.")
      | Some i =>
          p <- lift (index1 (_get_params l) i) ;;
          let noise_std := sqrt_array p in
          noise <- normal noise_std (rows Ysim) (cols Ysim) ;;
          lift (np_add Ysim noise)
      end
    else
      rs <- gets np_random ;;
      modify (fun w => {| self := self w; stdout := stdout w;
                          np_random := advance (np_random w) |}) ;;
      lift (noise_model_samples l rs Ysim).

End Model.

Arguments kern F : clear implicits.
Arguments Likelihood F {NR}.
Arguments Posterior F : clear implicits.
Arguments Inference F {NR}.
Arguments namespace F {NR}.
Arguments GP F {NR}.
Arguments world F {NR}.

(* ================================================================= *)
(** ** Example data (exact rationals) *)

(** Square root on rationals: exact on squares of rationals, rounded
    down on the numerator otherwise. *)
Definition Qc_sqrt (q : Qc) : Qc :=
  Q2Qc (QArith_base.Qmake
          (Z.sqrt (QArith_base.Qnum q * Zpos (QArith_base.Qden q)))
          (QArith_base.Qden q)).

(** A generator for the examples: every draw is the centre of its
    distribution, and the state counts the calls. *)
#[export] Instance Qc_Random : NumpyRandom Qc := {
  RandomState := nat;
  advance := S;
  np_sqrt := Qc_sqrt;
  multivariate_normal_entry := fun _ mean _ _ j => item1 mean j;
  normal_entry := fun _ loc _ _ _ => loc
}.

Definition qz (z : Z) : Qc := Q2Qc (QArith_base.inject_Z z).
Definition qfrac (n : Z) (d : positive) : Qc := Q2Qc (QArith_base.Qmake n d).

Definition first_coord (a : list Qc) : Qc := nth 0 a 0%Qc.

(** The kernel [k(a, b) = 2 + a.b] (a constant plus a linear kernel). *)
Definition linear_kern : kern Qc :=
  {| kfun := fun _ a b => (qz 2 + first_coord a * first_coord b)%Qc |}.

(** A covariance function that is not positive semi-definite:
    [k(a, b) = a.b + 2 (a - b)^2]. *)
Definition indefinite_kern : kern Qc :=
  {| kfun := fun _ a b =>
       (first_coord a * first_coord b
        + qz 2 * ((first_coord a - first_coord b) * (first_coord a - first_coord b)))%Qc |}.

(** Training data: [X = [[0], [1]]], [Y = [[0], [1]]]. *)
Definition X_ex : ndarray Qc := mk_ndarray [2; 1] [qz 0; qz 1].
Definition Y_ex : ndarray Qc := mk_ndarray [2; 1] [qz 0; qz 1].

(** A Gaussian likelihood of the given noise variance; its predictive
    variance adds the noise, its bounds are two deviations wide. *)
Definition gaussian_likelihood (variance : Qc) : Likelihood Qc :=
  {| lik_class := cls_Gaussian;
     _get_params := mk_ndarray [1] [variance];
     predictive_values := fun mu var _ _ =>
       let v := mk_ndarray (shape var) (map (fun x => x + variance)%Qc (data var)) in
       let half := map (fun x => qz 2 * Qc_sqrt x)%Qc (data v) in
       Return (mu, v,
               mk_ndarray (shape mu) (zip_with Qcminus (data mu) half),
               mk_ndarray (shape mu) (zip_with Qcplus (data mu) half));
     noise_model_samples := fun _ y => Return y |}.

(** A mixed-noise likelihood with two noise components. *)
Definition mixed_likelihood : Likelihood Qc :=
  {| lik_class := cls_Gaussian_Mixed_Noise;
     _get_params := mk_ndarray [2] [qz 1; qz 4];
     predictive_values := fun mu var _ _ => Return (mu, var, mu, mu);
     noise_model_samples := fun _ y => Return y |}.

(** The lower Cholesky factor [[2, 0], [1, 2]] of [[4, 2], [2, 5]] and
    the Woodbury vector [[4, 2], [2, 5]]^-1 . Y = [-1/8, 1/4]. *)
Definition posterior_ex : Posterior Qc :=
  {| _woodbury_chol := mk_ndarray [2; 2] [qz 2; qz 0; qz 1; qz 2];
     _woodbury_vector := mk_ndarray [2; 1] [qfrac (-1) 8; qfrac 1 4];
     log_marginal := qz 0;
     dL_dK := mk_ndarray [2; 2] [qz 0; qz 0; qz 0; qz 0];
     dL_dtheta_lik := mk_ndarray [1] [qz 0] |}.

(** Engines for the examples: one that answers with a given Posterior,
    one whose factorisation fails. *)
Definition answering_engine (name : string) (p : Posterior Qc) : Inference Qc :=
  {| repr := name; inference := fun _ _ _ => Return p |}.

Definition failing_engine (name : string) : Inference Qc :=
  {| repr := name;
     inference := fun _ _ _ => Raise (LinAlgError "not positive definite") |}.

(** An engine that does not support what it is asked for. *)
Definition unsupporting_engine (name : string) : Inference Qc :=
  {| repr := name;
     inference := fun _ _ _ => Raise (NotImplementedError "inference not supported") |}.

(** A model as construction leaves it, for a kernel and a likelihood. *)
Definition model_ex (k : kern Qc) (l : Likelihood Qc) (engine : Inference Qc) : GP Qc :=
  {| gp_X := Some X_ex; gp_num_data := Some 2; gp_input_dim := Some 1;
     gp_Y := Some Y_ex; gp_output_dim := Some 1; gp_kern := Some k;
     gp_likelihood := Some l; gp_inference_method := Some (Some engine);
     gp_K := Some (kern_K k X_ex None all); gp_posterior := Some posterior_ex |}.

Definition world_ex (g : GP Qc) : world Qc :=
  {| self := g; stdout := []; np_random := 0 |}.

(** The exact-inference engine of the examples answers with
    [posterior_ex]. *)
Definition exact_engine_ex : Inference Qc :=
  answering_engine "ExactGaussianInference" posterior_ex.

(** A fitted model with the kernel [2 + a.b] and Gaussian noise of
    variance 2: [K(X) + 2 I = [[4, 2], [2, 5]]]. *)
Definition linear_world : world Qc :=
  world_ex (model_ex linear_kern (gaussian_likelihood (qz 2)) exact_engine_ex).

(** A fitted model with the indefinite covariance function and Gaussian
    noise of variance 4: [K(X) = [[0, 2], [2, 1]]] and again
    [K(X) + 4 I = [[4, 2], [2, 5]]], so [posterior_ex] is its exact
    Posterior. *)
Definition indefinite_world : world Qc :=
  world_ex (model_ex indefinite_kern (gaussian_likelihood (qz 4)) exact_engine_ex).

(** A model whose likelihood is the mixed-noise likelihood. *)
Definition mixed_world : world Qc :=
  world_ex (model_ex linear_kern mixed_likelihood exact_engine_ex).

(** A single new point, [[1/2]], and an output matrix of three rows. *)
Definition Xnew_ex : ndarray Qc := mk_ndarray [1; 1] [qfrac 1 2].
Definition Y_three_rows : ndarray Qc := mk_ndarray [3; 1] [qz 0; qz 1; qz 0].

(** A namespace in which the three names that gp.py does not import
    are bound all the same. *)
Definition bound_namespace : namespace Qc :=
  {| exact_gaussian_inference := exact_engine_ex;
     ns_expectation_propagation := Some (answering_engine "EP" posterior_ex);
     ns_tdot := Some linalg_tdot;
     ns_Gaussian_Mixed_Noise := Some cls_Gaussian_Mixed_Noise |}.

Unset Implicit Arguments.

(* ================================================================= *)
(** ** Saving and restoring a model; the frame of a plot *)

Section StateAndPlot.
Context {F : Type} {SF : Scalar F} {NR : NumpyRandom F}.

(** The values that [getstate] collects and [setstate] assigns.
    Python does not type them: [setstate] assigns whatever the list
    holds. *)
Inductive pyvalue : Type :=
| py_array (a : ndarray F)
| py_int (n : nat)
| py_kern (k : kern F)
| py_likelihood (l : Likelihood F)
| py_other (name : string).

(** The instance dictionary: attribute name to value. *)
Definition instance_dict : Type := string -> option pyvalue.

(** [self.<name> = v] *)
Definition setattr (name : string) (v : pyvalue) (d : instance_dict) : instance_dict :=
  fun n => if String.eqb n name then Some v else d n.

(** The parameter framework ([Model], not part of gp.py) saves and
    restores its own share of the state.  [Model.setstate] receives
    the object and the list, and may change both. *)
Record framework : Type := {
  Model_getstate : instance_dict -> result (list pyvalue);
  Model_setstate :
    instance_dict -> list pyvalue -> result unit * (instance_dict * list pyvalue)
}.

(** [self.<name>] on the instance dictionary. *)
Definition getattr (d : instance_dict) (name : string) : result pyvalue :=
  match d name with
  | Some v => Return v
  | None => Raise (AttributeError ("'GP' object has no attribute '" ++ name ++ "'"))
  end.

(** [GP.getstate] (lines 314-326): the framework's list followed by
    eight attributes, read from left to right. *)
Definition getstate (fw : framework) (d : instance_dict) : result (list pyvalue) :=
  match Model_getstate fw d with
  | Raise e => Raise e
  | Return base =>
      match getattr d "X" with Raise e => Raise e | Return vX =>
      match getattr d "num_data" with Raise e => Raise e | Return vnum =>
      match getattr d "input_dim" with Raise e => Raise e | Return vin =>
      match getattr d "kern" with Raise e => Raise e | Return vkern =>
      match getattr d "likelihood" with Raise e => Raise e | Return vlik =>
      match getattr d "output_dim" with Raise e => Raise e | Return vout =>
      match getattr d "_Xoffset" with Raise e => Raise e | Return voff =>
      match getattr d "_Xscale" with Raise e => Raise e | Return vscale =>
        Return (base ++ [vX; vnum; vin; vkern; vlik; vout; voff; vscale])
      end end end end end end end end
  end.

(** [self.<name> = state.pop()]: the last entry leaves the list, which
    is the caller's list; IndexError on an empty list. *)
Definition assign_pop (name : string) : SE (instance_dict * list pyvalue) unit :=
  fun ds =>
    match rev (snd ds) with
    | [] => (Raise (IndexError "pop from empty list"), ds)
    | v :: rest => (Return tt, (setattr name v (fst ds), rev rest))
    end.

(** [GP.setstate] (lines 328-337). *)
Definition setstate (fw : framework) : SE (instance_dict * list pyvalue) unit :=
  assign_pop "_Xscale" ;;
  assign_pop "_Xoffset" ;;
  assign_pop "output_dim" ;;
  assign_pop "likelihood" ;;
  assign_pop "kern" ;;
  assign_pop "input_dim" ;;
  assign_pop "num_data" ;;
  assign_pop "X" ;;
  (fun ds => Model_setstate fw (fst ds) (snd ds)).

(** The eight attributes that [getstate] saves, in its order. *)
Definition saved_attributes : list string :=
  ["X"; "num_data"; "input_dim"; "kern"; "likelihood"; "output_dim";
   "_Xoffset"; "_Xscale"]%string.

(** The [which_data_ycols] argument of [plot]: ['all'] or a list of
    column numbers. *)
Inductive data_columns : Type :=
| columns_all
| columns (cols : list Z).

(** What [plot] can read and change before it draws: the model and the
    figures that [pylab] holds. *)
Record plot_state : Type := {
  pl_world : world F;
  pl_figures : nat
}.

(** The frame on which [plot] goes on to draw. *)
Inductive frame : Type :=
| frame_1D (free : nat)
| frame_2D (free1 free2 : nat).

(** [np.arange(n)] as a list, and [np.setdiff1d(np.arange(n), fixed)]:
    the numbers below [n] that are not among [fixed], in increasing
    order. *)
Definition arange (n : nat) : list nat := seq 0 n.

Definition setdiff1d_arange (n : nat) (fixed : list Z) : list nat :=
  filter (fun i => negb (existsb (Z.eqb (Z.of_nat i)) fixed)) (arange n).

Definition plot_attr {A : Type} (name : string) (proj : GP F -> option A)
  : SE plot_state A :=
  fun s =>
    match proj (self (pl_world s)) with
    | Some v => (Return v, s)
    | None =>
        (Raise (AttributeError ("'GP' object has no attribute '" ++ name ++ "'")), s)
    end.

(** [pb.figure(num=fignum)] followed by [fig.add_subplot(111)]. *)
Definition new_figure : SE plot_state unit :=
  modify (fun s => {| pl_world := pl_world s; pl_figures := S (pl_figures s) |}).

(** [GP.plot] up to its choice of a frame (lines 226-242, 279 and
    309-310): the handling of the optional arguments, the free input
    dimensions, and the three-way branch.  [ax_given] tells whether an
    axes object was passed.  What each frame then draws is pylab's and
    is not modelled. *)
Definition plot_frame (which_data_ycols : data_columns) (fixed_inputs : list (Z * F))
  (ax_given : bool) : SE plot_state frame :=
  ycols <- match which_data_ycols with
           | columns_all =>
               m <- plot_attr "output_dim" gp_output_dim ;;
               ret (map Z.of_nat (arange m))
           | columns c => ret c
           end ;;
  (if length ycols =? 0
   then raise (ValueError "No data selected for plotting")
   else ret tt) ;;
  (if ax_given then ret tt else new_figure) ;;
  let fixed_dims := map fst fixed_inputs in
  d <- plot_attr "input_dim" gp_input_dim ;;
  let free_dims := setdiff1d_arange d fixed_dims in
  match free_dims with
  | [a] => ret (frame_1D a)
  | [a; b] => ret (frame_2D a b)
  | _ => raise (NotImplementedError
                  "Cannot define a frame with more than two input dimensions")
  end.

End StateAndPlot.

Arguments pyvalue F {NR}.
Arguments instance_dict F {NR}.
Arguments framework F {NR}.
Arguments plot_state F {NR}.

(* ================================================================= *)
(** ** The vocabulary of the statements *)

Section Vocabulary.
Context {F : Type} {SF : Scalar F} {NR : NumpyRandom F}.

(** The cross-covariance [Covariance(Xnew, X)], [N_new] by [N]. *)
Definition cross_cov (k : kern F) (X Xnew : ndarray F) (wp : which_parts) : ndarray F :=
  kern_K k Xnew (Some X) wp.

(** The solution [Z] of [L . Z = Kx^T] that [_raw_predict] obtains from
    the triangular solver. *)
Definition solve_Z (post : Posterior F) (k : kern F) (X Xnew : ndarray F)
  (wp : which_parts) : ndarray F :=
  fst (dtrtrs (_woodbury_chol post) (transpose (cross_cov k X Xnew wp))).

(** The attributes that prediction reads are set: the state of a model
    after a successful construction. *)
Definition fitted (w : world F) (k : kern F) (X : ndarray F) (post : Posterior F) : Prop :=
  gp_kern (self w) = Some k /\ gp_X (self w) = Some X /\ gp_posterior (self w) = Some post.

(** The cached Posterior has the shapes of section 3: the factor is
    [N] by [N], the Woodbury vector [N] by [M]. *)
Definition posterior_shapes (X : ndarray F) (post : Posterior F) (M : nat) : Prop :=
  shape (_woodbury_chol post) = [rows X; rows X] /\
  shape (_woodbury_vector post) = [rows X; M].

(** The variance array that the diagonal branch builds: [Kdiag(Xnew)]
    minus the column sums of [Z * Z], as a column. *)
Definition diag_variance (post : Posterior F) (k : kern F) (X Xnew : ndarray F)
  (wp : which_parts) : ndarray F :=
  let Z := solve_Z post k X Xnew wp in
  let sq := mk_ndarray (shape Z) (zip_with Fmul (data Z) (data Z)) in
  reshape_col
    (mk_ndarray [rows Xnew]
       (zip_with Fsub (data (kern_Kdiag k Xnew wp)) (data (np_sum_axis0 sq)))).

(** A computation is read-only when it leaves the world as it found
    it, whether it returns or raises. *)
Definition read_only {A : Type} (c : Py A) : Prop := forall w, snd (c w) = w.

(** The world after one call to the generator. *)
Definition drawn (w : world F) : world F :=
  {| self := self w; stdout := stdout w; np_random := advance (np_random w) |}.

(** The line that the else branch of lines 52-54 prints. *)
Definition defaulting_line (ep : Inference F) : string :=
  "defaulting to " ++ " " ++ repr ep ++ " " ++ "for latent function inference".

End Vocabulary.

(** The entries of an array as plain rationals. *)
Definition entries (a : ndarray Qc) : list QArith_base.Q := map this (data a).

(** A freshly allocated instance, before [__init__] runs. *)
Definition fresh_world : world Qc := world_ex new_GP.

(** A fitted model whose engine fails on the next inference. *)
Definition failing_world : world Qc :=
  world_ex (model_ex linear_kern (gaussian_likelihood (qz 2))
              (failing_engine "ExactGaussianInference")).

(** A fitted model of two output columns: [Y] is 2 by 2 and so is the
    Woodbury vector of its Posterior. *)
Definition Y_two_columns : ndarray Qc := mk_ndarray [2; 2] [qz 0; qz 1; qz 1; qz 0].

Definition two_output_posterior : Posterior Qc :=
  {| _woodbury_chol := mk_ndarray [2; 2] [qz 2; qz 0; qz 1; qz 2];
     _woodbury_vector :=
       mk_ndarray [2; 2] [qfrac (-1) 8; qfrac 3 8; qfrac 1 4; qfrac (-1) 4];
     log_marginal := qz 0;
     dL_dK := mk_ndarray [2; 2] [qz 0; qz 0; qz 0; qz 0];
     dL_dtheta_lik := mk_ndarray [1] [qz 0] |}.

Definition two_output_world : world Qc :=
  world_ex
    {| gp_X := Some X_ex; gp_num_data := Some 2; gp_input_dim := Some 1;
       gp_Y := Some Y_two_columns; gp_output_dim := Some 2;
       gp_kern := Some linear_kern;
       gp_likelihood := Some (gaussian_likelihood (qz 2));
       gp_inference_method :=
         Some (Some (answering_engine "ExactGaussianInference" two_output_posterior));
       gp_K := Some (kern_K linear_kern X_ex None all);
       gp_posterior := Some two_output_posterior |}.

(** A model of three input dimensions, as [plot] sees it, with no
    figure open. *)
Definition X_three_inputs : ndarray Qc :=
  mk_ndarray [2; 3] [qz 0; qz 1; qz 2; qz 1; qz 0; qz 1].

Definition three_input_model : GP Qc :=
  {| gp_X := Some X_three_inputs; gp_num_data := Some 2; gp_input_dim := Some 3;
     gp_Y := Some Y_ex; gp_output_dim := Some 1; gp_kern := Some linear_kern;
     gp_likelihood := Some (gaussian_likelihood (qz 2));
     gp_inference_method := Some (Some exact_engine_ex);
     gp_K := Some (kern_K linear_kern X_three_inputs None all);
     gp_posterior := Some posterior_ex |}.

Definition plot_state_ex (g : GP Qc) : plot_state Qc :=
  {| pl_world := world_ex g; pl_figures := 0 |}.

(** A parameter framework that saves one value of its own and restores
    nothing. *)
Definition framework_ex : framework Qc :=
  {| Model_getstate := fun _ => Return [py_other "parameters"];
     Model_setstate := fun d st => (Return tt, (d, st)) |}.

(** Instance dictionaries: an empty one, one that holds the six
    attributes which [getstate] reads and the constructor assigns, and
    one that holds all eight. *)
Definition empty_dict : instance_dict Qc := fun _ => None.

Definition constructed_dict : instance_dict Qc :=
  setattr "output_dim" (py_int 1)
    (setattr "likelihood" (py_likelihood (gaussian_likelihood (qz 2)))
       (setattr "kern" (py_kern linear_kern)
          (setattr "input_dim" (py_int 1)
             (setattr "num_data" (py_int 2)
                (setattr "X" (py_array X_ex) empty_dict))))).

Definition saved_dict : instance_dict Qc :=
  setattr "_Xscale" (py_array (mk_ndarray [1; 1] [qz 1]))
    (setattr "_Xoffset" (py_array (mk_ndarray [1; 1] [qz 0])) constructed_dict).

(* ================================================================= *)
(** * Properties *)

(** ** Arrays *)

Section ArrayFacts.
Context {F : Type} {SF : Scalar F}.

Lemma nth_flat_map_block (A : Type) (g : nat -> list A) (c : nat) (d : A) :
  (forall i, length (g i) = c) ->
  forall (l : list nat) (i j : nat),
    i < length l -> j < c ->
    nth (i * c + j) (flat_map g l) d = nth j (g (nth i l 0)) d.
Proof.
  intros Hlen l. induction l as [|x l IH]; intros i j Hi Hj.
  - simpl in Hi. lia.
  - simpl. destruct i as [|i].
    + simpl. rewrite app_nth1 by (rewrite Hlen; lia). reflexivity.
    + rewrite app_nth2 by (rewrite Hlen; simpl; lia).
      rewrite Hlen. replace (S i * c + j - c) with (i * c + j) by (simpl; lia).
      apply IH; simpl in Hi; lia.
Qed.

Lemma length_flat_map_block (A : Type) (g : nat -> list A) (c : nat) :
  (forall i, length (g i) = c) ->
  forall l : list nat, length (flat_map g l) = length l * c.
Proof.
  intros Hlen l. induction l as [|x l IH]; simpl.
  - reflexivity.
  - rewrite length_app, Hlen, IH. reflexivity.
Qed.

Lemma size_tabulate2 (r c : nat) (f : nat -> nat -> F) :
  size (tabulate2 r c f) = r * c.
Proof.
  unfold size, tabulate2. simpl.
  rewrite (length_flat_map_block _ _ c).
  - rewrite length_seq. reflexivity.
  - intro i. rewrite length_map, length_seq. reflexivity.
Qed.

Lemma item2_tabulate2 (r c : nat) (f : nat -> nat -> F) (i j : nat) :
  i < r -> j < c -> item2 (tabulate2 r c f) i j = f i j.
Proof.
  intros Hi Hj. unfold item2, tabulate2, cols. simpl.
  rewrite (nth_flat_map_block _ _ c).
  - rewrite seq_nth by assumption. simpl.
    rewrite (nth_indep _ F0 (f i 0)) by (rewrite length_map, length_seq; assumption).
    rewrite map_nth, seq_nth by assumption. reflexivity.
  - intro k. rewrite length_map, length_seq. reflexivity.
  - rewrite length_seq. assumption.
  - assumption.
Qed.

Lemma item1_tabulate1 (n : nat) (f : nat -> F) (i : nat) :
  i < n -> item1 (tabulate1 n f) i = f i.
Proof.
  intro Hi. unfold item1, tabulate1. simpl.
  rewrite (nth_indep _ F0 (f 0)) by (rewrite length_map, length_seq; assumption).
  rewrite map_nth, seq_nth by assumption. reflexivity.
Qed.

Lemma tabulate2_ext (r c : nat) (f g : nat -> nat -> F) :
  (forall i j, i < r -> j < c -> f i j = g i j) ->
  tabulate2 r c f = tabulate2 r c g.
Proof.
  intro H. unfold tabulate2. f_equal.
  assert (Hgen : forall l, (forall i, In i l -> i < r) ->
            flat_map (fun i => map (f i) (seq 0 c)) l
            = flat_map (fun i => map (g i) (seq 0 c)) l).
  { induction l as [|x l IH]; intro Hl; simpl.
    - reflexivity.
    - rewrite IH by (intros; apply Hl; right; assumption).
      f_equal. apply map_ext_in. intros j Hj. apply in_seq in Hj.
      apply H; [apply Hl; left; reflexivity | lia]. }
  apply Hgen. intros i Hi. apply in_seq in Hi. lia.
Qed.

Lemma transpose_tabulate2 (r c : nat) (f : nat -> nat -> F) :
  transpose (tabulate2 r c f) = tabulate2 c r (fun i j => f j i).
Proof.
  unfold transpose. simpl. apply tabulate2_ext.
  intros i j Hi Hj. apply item2_tabulate2; assumption.
Qed.

Lemma fsum_S (n : nat) (f : nat -> F) : fsum (S n) f = Fadd (fsum n f) (f n).
Proof.
  unfold fsum. rewrite seq_S, fold_left_app. reflexivity.
Qed.

Lemma fsum_ext (n : nat) (f g : nat -> F) :
  (forall k, k < n -> f k = g k) -> fsum n f = fsum n g.
Proof.
  induction n as [|n IH]; intro H.
  - reflexivity.
  - rewrite !fsum_S, IH, H by (intros; try apply H; lia). reflexivity.
Qed.

Lemma shape_eqb_refl (s : list nat) : shape_eqb s s = true.
Proof. unfold shape_eqb. destruct (list_eq_dec Nat.eq_dec s s); congruence. Qed.

Lemma length_zip_with (f : F -> F -> F) (x y : list F) :
  length x = length y -> length (zip_with f x y) = length x.
Proof.
  revert y. induction x as [|a x IH]; intros [|b y] H; simpl in *; try lia.
  rewrite IH by lia. reflexivity.
Qed.

Lemma nth_zip_with (f : F -> F -> F) (x y : list F) (i : nat) (d : F) :
  i < length x -> length x = length y ->
  nth i (zip_with f x y) d = f (nth i x d) (nth i y d).
Proof.
  revert y i. induction x as [|a x IH]; intros [|b y] i Hi H; simpl in *; try lia.
  destruct i as [|i]; [reflexivity | apply IH; lia].
Qed.

(** ** Forward substitution *)

Lemma length_forward_col (A : ndarray F) (b : nat -> F) (n : nat) :
  length (forward_col A b n) = n.
Proof.
  induction n as [|n IH]; simpl.
  - reflexivity.
  - rewrite length_app, IH. simpl. lia.
Qed.

Lemma forward_col_prefix (A : ndarray F) (b : nat -> F) (n m k : nat) :
  k < n -> n <= m ->
  nth k (forward_col A b m) F0 = nth k (forward_col A b n) F0.
Proof.
  intros Hk Hnm. induction Hnm as [|m Hnm IH].
  - reflexivity.
  - simpl. rewrite app_nth1 by (rewrite length_forward_col; lia). exact IH.
Qed.

Lemma forward_col_last (A : ndarray F) (b : nat -> F) (i : nat) :
  nth i (forward_col A b (S i)) F0
  = Fdiv (Fsub (b i)
            (fsum i (fun k => Fmul (item2 A i k) (nth k (forward_col A b i) F0))))
         (item2 A i i).
Proof.
  simpl. rewrite app_nth2 by (rewrite length_forward_col; lia).
  rewrite length_forward_col, Nat.sub_diag. reflexivity.
Qed.

Lemma forward_col_ext (A : ndarray F) (b b' : nat -> F) (n : nat) :
  (forall i, i < n -> b i = b' i) -> forward_col A b n = forward_col A b' n.
Proof.
  induction n as [|n IH]; intro H; simpl.
  - reflexivity.
  - rewrite IH, H by (intros; try apply H; lia). reflexivity.
Qed.

Section Exact.
Hypothesis Fth : field_theory F0 F1 Fadd Fmul Fsub Fopp Fdiv Finv eq.
Add Field Ffield : Fth.

(** In exact arithmetic forward substitution solves the system whose
    matrix is the lower triangle of [A], provided the diagonal of [A]
    has no zero. *)
Lemma forward_col_solves (A : ndarray F) (b : nat -> F) (n i : nat) :
  i < n ->
  item2 A i i <> F0 ->
  fsum (S i) (fun k => Fmul (item2 A i k) (nth k (forward_col A b n) F0)) = b i.
Proof.
  intros Hi Hd. rewrite fsum_S.
  rewrite (forward_col_prefix A b (S i) n i) by lia.
  rewrite forward_col_last.
  rewrite (fsum_ext i _ (fun k => Fmul (item2 A i k) (nth k (forward_col A b i) F0))).
  - field. exact Hd.
  - intros k Hk. f_equal. apply forward_col_prefix; lia.
Qed.

End Exact.

End ArrayFacts.

(* ================================================================= *)
(** ** The prediction pipeline *)

Section ModelFacts.
Context {F : Type} {SF : Scalar F} {NR : NumpyRandom F}.

Lemma transpose_cross_cov_twice (k : kern F) (X Xnew : ndarray F) (wp : which_parts) :
  transpose (transpose (cross_cov k X Xnew wp)) = cross_cov k X Xnew wp.
Proof.
  unfold cross_cov, kern_K. rewrite !transpose_tabulate2. reflexivity.
Qed.

Lemma shape_solve_Z (post : Posterior F) (k : kern F) (X Xnew : ndarray F)
  (wp : which_parts) :
  shape (solve_Z post k X Xnew wp) = [rows X; rows Xnew].
Proof.
  unfold solve_Z, dtrtrs, cross_cov, kern_K. rewrite transpose_tabulate2. reflexivity.
Qed.

Lemma item2_solve_Z (post : Posterior F) (k : kern F) (X Xnew : ndarray F)
  (wp : which_parts) (i j : nat) :
  i < rows X -> j < rows Xnew ->
  item2 (solve_Z post k X Xnew wp) i j
  = nth i (forward_col (_woodbury_chol post)
             (fun r => item2 (cross_cov k X Xnew wp) j r) (rows X)) F0.
Proof.
  intros Hi Hj. unfold solve_Z, dtrtrs. simpl fst.
  unfold cross_cov, kern_K. rewrite transpose_tabulate2.
  change (rows (tabulate2 (rows X) (rows Xnew) _)) with (rows X).
  change (cols (tabulate2 (rows X) (rows Xnew) _)) with (rows Xnew).
  rewrite item2_tabulate2 by assumption.
  f_equal. apply forward_col_ext. intros r Hr.
  rewrite !item2_tabulate2 by assumption. reflexivity.
Qed.

Lemma raw_predict_diag_run (ns : namespace F) (w : world F) (k : kern F)
  (X Xnew : ndarray F) (post : Posterior F) (wp : which_parts) :
  fitted w k X post ->
  _raw_predict ns Xnew wp false w
  = match np_dot (cross_cov k X Xnew wp) (_woodbury_vector post) with
    | Return mu => (Return (mu, diag_variance post k X Xnew wp), w)
    | Raise e => (Raise e, w)
    end.
Proof.
  intros (Hk & HX & Hp).
  unfold _raw_predict, bind, attr. rewrite Hk, HX, Hp.
  unfold asfortranarray.
  change (kern_K k Xnew (Some X) wp) with (cross_cov k X Xnew wp).
  rewrite transpose_cross_cov_twice.
  unfold lift at 1.
  destruct (np_dot (cross_cov k X Xnew wp) (_woodbury_vector post)) as [mu|e];
    [|reflexivity].
  fold (solve_Z post k X Xnew wp).
  unfold np_mul, elementwise. rewrite shape_eqb_refl. unfold lift at 1.
  unfold np_sub, elementwise. unfold lift at 1.
  assert (Hs : shape (np_sum_axis0
                 (mk_ndarray (shape (solve_Z post k X Xnew wp))
                    (zip_with Fmul (data (solve_Z post k X Xnew wp))
                       (data (solve_Z post k X Xnew wp)))))
               = shape (kern_Kdiag k Xnew wp)).
  { unfold np_sum_axis0, cols, tabulate1. cbn [shape]. rewrite shape_solve_Z. reflexivity. }
  rewrite Hs, shape_eqb_refl. reflexivity.
Qed.

Lemma shape_diag_variance (post : Posterior F) (k : kern F) (X Xnew : ndarray F)
  (wp : which_parts) :
  shape (diag_variance post k X Xnew wp) = [rows Xnew; 1].
Proof.
  unfold diag_variance, reshape_col, size. cbn [shape data].
  rewrite length_zip_with.
  - unfold kern_Kdiag, tabulate1. cbn [data]. rewrite length_map, length_seq. reflexivity.
  - unfold kern_Kdiag, np_sum_axis0, tabulate1, cols. cbn [data shape].
    rewrite shape_solve_Z. cbn [nth]. rewrite !length_map, !length_seq. reflexivity.
Qed.

(** Entry [j] of the diagonal variance is [k(x_j, x_j)] minus the sum
    of the squares of column [j] of [Z]: nothing is clipped. *)
Lemma item2_diag_variance (post : Posterior F) (k : kern F) (X Xnew : ndarray F)
  (wp : which_parts) (j : nat) :
  j < rows Xnew ->
  item2 (diag_variance post k X Xnew wp) j 0
  = Fsub (kfun k wp (row Xnew j) (row Xnew j))
         (fsum (rows X)
            (fun i => Fmul (item2 (solve_Z post k X Xnew wp) i j)
                           (item2 (solve_Z post k X Xnew wp) i j))).
Proof.
  intro Hj. unfold item2 at 1. unfold cols. rewrite shape_diag_variance. cbn [nth].
  replace (j * 1 + 0) with j by lia.
  unfold diag_variance, reshape_col. cbn [data].
  assert (Hlen : length (data (solve_Z post k X Xnew wp)) = rows X * rows Xnew).
  { unfold solve_Z, dtrtrs. cbn [fst]. unfold cross_cov, kern_K.
    rewrite transpose_tabulate2. apply size_tabulate2. }
  rewrite nth_zip_with.
  - fold (item1 (kern_Kdiag k Xnew wp) j). unfold kern_Kdiag.
    rewrite item1_tabulate1 by assumption. f_equal.
    match goal with |- nth j (data ?a) F0 = _ => change (nth j (data a) F0) with (item1 a j) end.
    unfold np_sum_axis0, cols, rows. cbn [shape]. rewrite shape_solve_Z. cbn [nth].
    rewrite item1_tabulate1 by assumption.
    apply fsum_ext. intros i Hi.
    unfold item2, cols. cbn [shape data]. rewrite ?shape_solve_Z. cbn [nth].
    rewrite nth_zip_with; [reflexivity | | reflexivity].
    rewrite Hlen. fold (rows X) in Hi.
    apply Nat.lt_le_trans with (S i * rows Xnew); [simpl; lia |].
    apply Nat.mul_le_mono_r. lia.
  - unfold kern_Kdiag, tabulate1. cbn [data]. rewrite length_map, length_seq. assumption.
  - unfold kern_Kdiag, np_sum_axis0, tabulate1, cols. cbn [data shape].
    rewrite shape_solve_Z. cbn [nth]. rewrite !length_map, !length_seq. reflexivity.
Qed.

(** With a Woodbury vector of [N] rows the product for the mean is
    defined, and its entries are the inner products. *)
Lemma np_dot_cross_cov (post : Posterior F) (k : kern F) (X Xnew : ndarray F)
  (wp : which_parts) (M : nat) :
  shape (_woodbury_vector post) = [rows X; M] ->
  np_dot (cross_cov k X Xnew wp) (_woodbury_vector post)
  = Return (tabulate2 (rows Xnew) M
              (fun i j => fsum (rows X)
                 (fun r => Fmul (kfun k wp (row Xnew i) (row X r))
                                (item2 (_woodbury_vector post) r j)))).
Proof.
  intro Hs.
  assert (H1 : ndim (cross_cov k X Xnew wp) = 2) by reflexivity.
  assert (H2 : ndim (_woodbury_vector post) = 2) by (unfold ndim; rewrite Hs; reflexivity).
  assert (H3 : cols (cross_cov k X Xnew wp) = rows X) by reflexivity.
  assert (H4 : rows (_woodbury_vector post) = rows X)
    by (unfold rows at 1; rewrite Hs; reflexivity).
  assert (H5 : cols (_woodbury_vector post) = M) by (unfold cols; rewrite Hs; reflexivity).
  assert (H6 : rows (cross_cov k X Xnew wp) = rows Xnew) by reflexivity.
  unfold np_dot. rewrite H1, H2, H3, H4, H5, H6. cbn [Nat.eqb andb]. rewrite Nat.eqb_refl.
  f_equal. apply tabulate2_ext. intros i j Hi Hj.
  apply fsum_ext. intros r Hr. unfold cross_cov, kern_K.
  rewrite item2_tabulate2 by assumption. reflexivity.
Qed.

Section ExactPrediction.
Hypothesis Fth : field_theory F0 F1 Fadd Fmul Fsub Fopp Fdiv Finv eq.

(** In exact arithmetic the [Z] of [_raw_predict] solves [L . Z = Kx^T],
    [L] being read through its lower triangle. *)
Lemma solve_Z_solves (post : Posterior F) (k : kern F) (X Xnew : ndarray F)
  (wp : which_parts) (i j : nat) :
  i < rows X -> j < rows Xnew ->
  item2 (_woodbury_chol post) i i <> F0 ->
  fsum (S i) (fun r => Fmul (item2 (_woodbury_chol post) i r)
                            (item2 (solve_Z post k X Xnew wp) r j))
  = item2 (cross_cov k X Xnew wp) j i.
Proof.
  intros Hi Hj Hd.
  rewrite (fsum_ext (S i) _
             (fun r => Fmul (item2 (_woodbury_chol post) i r)
                (nth r (forward_col (_woodbury_chol post)
                          (fun r' => item2 (cross_cov k X Xnew wp) j r') (rows X)) F0))).
  - apply (forward_col_solves Fth (_woodbury_chol post)
             (fun r' => item2 (cross_cov k X Xnew wp) j r')); assumption.
  - intros r Hr. rewrite item2_solve_Z by lia. reflexivity.
Qed.

(** C1. For a model with a cached Posterior of the right shapes and a
    factor [L] without zero on its diagonal, [_raw_predict(Xnew,
    full_cov=False)] returns, leaving the model untouched, the mean
    [Kx . woodbury_vector] with [Kx = Covariance(Xnew, X)], and a
    variance of shape [N_new x 1] whose entry [j] is the [j]-th diagonal
    entry of [Covariance(Xnew)] minus the sum down column [j] of
    [Z * Z], where [Z] is the forward-substitution solution of
    [L . Z = Kx^T] (the only use made of [L]). *)
Theorem raw_predict_diagonal_case (ns : namespace F) (w : world F) (k : kern F)
  (X Xnew : ndarray F) (post : Posterior F) (wp : which_parts) (M : nat) :
  fitted w k X post ->
  posterior_shapes X post M ->
  (forall i, i < rows X -> item2 (_woodbury_chol post) i i <> F0) ->
  let Kx := cross_cov k X Xnew wp in
  let Z := fst (dtrtrs (_woodbury_chol post) (transpose Kx)) in
  exists mean variance,
    _raw_predict ns Xnew wp false w = (Return (mean, variance), w) /\
    np_dot Kx (_woodbury_vector post) = Return mean /\
    (forall i j, i < rows Xnew -> j < M ->
       item2 mean i j
       = fsum (rows X) (fun r => Fmul (item2 Kx i r) (item2 (_woodbury_vector post) r j))) /\
    shape variance = [rows Xnew; 1] /\
    (forall j, j < rows Xnew ->
       item2 variance j 0
       = Fsub (item2 (kern_K k Xnew None wp) j j)
              (fsum (rows X) (fun i => Fmul (item2 Z i j) (item2 Z i j)))) /\
    (forall i j, i < rows X -> j < rows Xnew ->
       fsum (S i) (fun r => Fmul (item2 (_woodbury_chol post) i r) (item2 Z r j))
       = item2 (transpose Kx) i j).
Proof.
  intros Hfit (HL & Hwv) Hdiag Kx Z.
  pose proof (np_dot_cross_cov post k X Xnew wp M Hwv) as Hdot.
  eexists. exists (diag_variance post k X Xnew wp).
  split; [rewrite (raw_predict_diag_run ns w k X Xnew post wp Hfit); unfold Kx in *;
          rewrite Hdot; reflexivity |].
  split; [exact Hdot |].
  split.
  { intros i j Hi Hj. rewrite item2_tabulate2 by assumption.
    apply fsum_ext. intros r Hr. unfold Kx, cross_cov, kern_K.
    rewrite item2_tabulate2 by assumption. reflexivity. }
  split; [apply shape_diag_variance |].
  split.
  { intros j Hj. rewrite item2_diag_variance by assumption.
    unfold kern_K. rewrite item2_tabulate2 by assumption. reflexivity. }
  intros i j Hi Hj. unfold Z, Kx. fold (solve_Z post k X Xnew wp).
  rewrite solve_Z_solves by auto.
  unfold cross_cov, kern_K. rewrite transpose_tabulate2.
  rewrite !item2_tabulate2 by assumption. reflexivity.
Qed.

End ExactPrediction.

(* ================================================================= *)
(** ** Computations that only read *)

Lemma read_only_ret (A : Type) (a : A) : read_only (ret a).
Proof. intro w. reflexivity. Qed.

Lemma read_only_raise (A : Type) (e : exn) : read_only (raise (A := A) e).
Proof. intro w. reflexivity. Qed.

Lemma read_only_lift (A : Type) (r : result A) : read_only (lift r).
Proof. intro w. reflexivity. Qed.

Lemma read_only_attr (A : Type) (name : string) (proj : GP F -> option A) :
  read_only (attr name proj).
Proof. intro w. unfold attr. destruct (proj (self w)); reflexivity. Qed.

Lemma read_only_global (A : Type) (name : string) (b : option A) :
  read_only (global (W := world F) name b).
Proof. intro w. destruct b; reflexivity. Qed.

Lemma read_only_bind (A B : Type) (c : Py A) (k : A -> Py B) :
  read_only c -> (forall a, read_only (k a)) -> read_only (bind c k).
Proof.
  intros Hc Hk w. unfold bind. specialize (Hc w).
  destruct (c w) as [[a|e] w']; simpl in Hc; subst w'.
  - apply Hk.
  - reflexivity.
Qed.

Create HintDb read_only.
#[local] Hint Resolve read_only_ret read_only_raise read_only_lift read_only_attr
  read_only_global : read_only.

Ltac read_only_step :=
  first
    [ apply read_only_bind; [| intro ]
    | solve [ auto with read_only ]
    | match goal with
      | |- read_only (if ?b then _ else _) => destruct b
      | |- read_only (match ?x with _ => _ end) => destruct x
      end ].

Lemma raw_predict_read_only (ns : namespace F) (Xnew : ndarray F) (wp : which_parts)
  (full_cov : bool) : read_only (_raw_predict ns Xnew wp full_cov).
Proof. unfold _raw_predict. repeat read_only_step. Qed.

Lemma predict_read_only (ns : namespace F) (Xnew : ndarray F) (wp : which_parts)
  (full_cov : bool) (args : kwargs) : read_only (predict ns Xnew wp full_cov args).
Proof.
  unfold predict. apply read_only_bind; [apply raw_predict_read_only |].
  intros [mu var]. repeat read_only_step.
Qed.

(** C8. Two consecutive calls of [predict] with the same arguments, with
    no [parameters_changed] in between, return the same result: the
    first call leaves the model, the standard output and the generator
    state exactly as they were, so the second call runs in the same
    world. *)
Theorem predict_twice_same_result (ns : namespace F) (w : world F) (Xnew : ndarray F)
  (wp : which_parts) (full_cov : bool) (likelihood_args : kwargs) :
  let first := predict ns Xnew wp full_cov likelihood_args w in
  let second := predict ns Xnew wp full_cov likelihood_args (snd first) in
  fst second = fst first /\ snd first = w /\ snd second = w.
Proof.
  intros first second.
  assert (H1 : snd first = w) by apply predict_read_only.
  unfold second. rewrite H1. fold first. auto.
Qed.

(* ================================================================= *)
(** ** The full-covariance branch and the sampling methods *)

(** What the full-covariance branch does once the mean is computed:
    it reads the global [tdot]. *)
Lemma raw_predict_full_run (ns : namespace F) (w : world F) (k : kern F)
  (X Xnew : ndarray F) (post : Posterior F) (wp : which_parts) :
  fitted w k X post ->
  _raw_predict ns Xnew wp true w
  = match np_dot (cross_cov k X Xnew wp) (_woodbury_vector post) with
    | Return mu =>
        match ns_tdot ns with
        | None => (Raise (NameError "tdot"), w)
        | Some tdot =>
            match tdot (transpose (solve_Z post k X Xnew wp)) with
            | Return t =>
                match np_sub (kern_K k Xnew None wp) t with
                | Return var => (Return (mu, var), w)
                | Raise e => (Raise e, w)
                end
            | Raise e => (Raise e, w)
            end
        end
    | Raise e => (Raise e, w)
    end.
Proof.
  intros (Hk & HX & Hp).
  unfold _raw_predict, bind, attr. rewrite Hk, HX, Hp.
  unfold asfortranarray.
  change (kern_K k Xnew (Some X) wp) with (cross_cov k X Xnew wp).
  rewrite transpose_cross_cov_twice.
  unfold lift at 1.
  destruct (np_dot (cross_cov k X Xnew wp) (_woodbury_vector post)) as [mu|e];
    [|reflexivity].
  fold (solve_Z post k X Xnew wp).
  destruct (ns_tdot ns) as [tdot|]; [|reflexivity].
  unfold global, ret, lift.
  destruct (tdot (transpose (solve_Z post k X Xnew wp))) as [t|e]; [|reflexivity].
  destruct (np_sub (kern_K k Xnew None wp) t); reflexivity.
Qed.

(** C7 (the code as it stands). In the namespace that gp.py's imports
    build, [_raw_predict(Xnew, full_cov=True)] on a fitted model returns
    no covariance at all: line 88 reads the global [tdot], which no
    import binds, and the call raises NameError, for a single-point
    [Xnew] as for any other. *)
Theorem raw_predict_full_cov_raises (ExactGaussianInference : Inference F)
  (w : world F) (k : kern F) (X Xnew : ndarray F) (post : Posterior F)
  (wp : which_parts) (M : nat) :
  fitted w k X post ->
  posterior_shapes X post M ->
  rows Xnew = 1 ->
  _raw_predict (gp_namespace ExactGaussianInference) Xnew wp true w
  = (Raise (NameError "tdot"), w).
Proof.
  intros Hfit (_ & Hwv) _.
  rewrite (raw_predict_full_run _ w k X Xnew post wp Hfit).
  rewrite (np_dot_cross_cov post k X Xnew wp M Hwv). reflexivity.
Qed.

Lemma np_dot_tabulate2 (r c m : nat) (f g : nat -> nat -> F) :
  np_dot (tabulate2 r c f) (tabulate2 c m g)
  = Return (tabulate2 r m (fun i j => fsum c (fun x => Fmul (f i x) (g x j)))).
Proof.
  unfold np_dot.
  change (ndim (tabulate2 r c f)) with 2. change (ndim (tabulate2 c m g)) with 2.
  change (cols (tabulate2 r c f)) with c. change (rows (tabulate2 c m g)) with c.
  change (rows (tabulate2 r c f)) with r. change (cols (tabulate2 c m g)) with m.
  cbn [Nat.eqb andb]. rewrite Nat.eqb_refl.
  f_equal. apply tabulate2_ext. intros i j Hi Hj.
  apply fsum_ext. intros x Hx. rewrite !item2_tabulate2 by assumption. reflexivity.
Qed.

(** Were [tdot] bound to [GPy.util.linalg.tdot], the single-point
    covariance would be the 1-by-1 matrix holding the diagonal-case
    variance, as the boundary property of the specification asks. *)
Lemma raw_predict_single_point_with_tdot (ns : namespace F) (w : world F) (k : kern F)
  (X Xnew : ndarray F) (post : Posterior F) (wp : which_parts) (M : nat) :
  fitted w k X post ->
  posterior_shapes X post M ->
  rows Xnew = 1 ->
  ns_tdot ns = Some linalg_tdot ->
  exists mean cov,
    _raw_predict ns Xnew wp true w = (Return (mean, cov), w) /\
    shape cov = [1; 1] /\
    item2 cov 0 0 = item2 (diag_variance post k X Xnew wp) 0 0.
Proof.
  intros Hfit (_ & Hwv) H1 Htdot.
  rewrite (raw_predict_full_run ns w k X Xnew post wp Hfit).
  rewrite (np_dot_cross_cov post k X Xnew wp M Hwv), Htdot.
  assert (HZ : transpose (solve_Z post k X Xnew wp)
               = tabulate2 1 (rows X) (fun i j => item2 (solve_Z post k X Xnew wp) j i)).
  { unfold transpose, ndim, cols, rows. rewrite shape_solve_Z, H1. reflexivity. }
  unfold linalg_tdot. rewrite HZ, transpose_tabulate2, np_dot_tabulate2.
  unfold np_sub, elementwise, kern_K. rewrite H1. cbn [shape]. rewrite shape_eqb_refl.
  eexists. eexists. split; [reflexivity|]. split; [reflexivity|].
  rewrite item2_diag_variance by lia.
  unfold item2 at 1. cbn [cols shape nth data].
  rewrite nth_zip_with.
  - reflexivity.
  - simpl. lia.
  - reflexivity.
Qed.

Lemma size_diag_variance (post : Posterior F) (k : kern F) (X Xnew : ndarray F)
  (wp : which_parts) :
  size (diag_variance post k X Xnew wp) = rows Xnew.
Proof.
  pose proof (shape_diag_variance post k X Xnew wp) as H.
  unfold diag_variance, reshape_col in *. cbn [shape] in H.
  injection H as H. exact H.
Qed.

(** The diagonal branch of [posterior_samples_f] for a single-output
    model: [count] draws from the multivariate normal whose mean is the
    flattened mean and whose covariance is the diagonal matrix of the
    flattened variance, transposed to [N_new x count]. *)
Lemma posterior_samples_f_diagonal (ns : namespace F) (w : world F) (k : kern F)
  (X Xnew : ndarray F) (post : Posterior F) (wp : which_parts) (count : nat) :
  fitted w k X post ->
  posterior_shapes X post 1 ->
  exists mean Ysim,
    np_dot (cross_cov k X Xnew wp) (_woodbury_vector post) = Return mean /\
    posterior_samples_f ns Xnew count wp false w = (Return Ysim, drawn w) /\
    Ysim = transpose
             (tabulate2 count (rows Xnew)
                (multivariate_normal_entry (np_random w) (flatten mean)
                   (np_diag (flatten (diag_variance post k X Xnew wp))))) /\
    shape Ysim = [rows Xnew; count].
Proof.
  intros Hfit (_ & Hwv).
  pose proof (np_dot_cross_cov post k X Xnew wp 1 Hwv) as Hdot.
  eexists. eexists. split; [exact Hdot |].
  unfold posterior_samples_f. unfold bind at 1.
  rewrite (raw_predict_diag_run ns w k X Xnew post wp Hfit), Hdot.
  assert (Hnd : (ndim (diag_variance post k X Xnew wp) =? 3) = false)
    by (unfold ndim; rewrite shape_diag_variance; reflexivity).
  rewrite Hnd. unfold bind at 1. unfold ret at 1. cbn [negb].
  unfold multivariate_normal.
  change (ndim (flatten ?a)) with 1. cbn [Nat.eqb negb].
  change (ndim (np_diag ?a)) with 2.
  change (rows (np_diag ?a)) with (size a). change (cols (np_diag ?a)) with (size a).
  change (rows (flatten ?a)) with (size a).
  cbn [Nat.eqb negb orb]. rewrite Nat.eqb_refl. cbn [negb].
  change (size (flatten ?a)) with (size a).
  rewrite size_diag_variance, size_tabulate2, Nat.mul_1_r, Nat.eqb_refl. cbn [negb].
  unfold bind, ret. split; [reflexivity |]. split; [reflexivity |].
  rewrite transpose_tabulate2. reflexivity.
Qed.

Lemma posterior_samples_f_unbound_tdot (ns : namespace F)
  (w : world F) (k : kern F) (X Xnew : ndarray F) (post : Posterior F)
  (wp : which_parts) (M count : nat) :
  fitted w k X post ->
  posterior_shapes X post M ->
  ns_tdot ns = None ->
  posterior_samples_f ns Xnew count wp true w = (Raise (NameError "tdot"), w).
Proof.
  intros Hfit (_ & Hwv) Hns.
  unfold posterior_samples_f. unfold bind at 1.
  rewrite (raw_predict_full_run _ w k X Xnew post wp Hfit).
  rewrite (np_dot_cross_cov post k X Xnew wp M Hwv), Hns. reflexivity.
Qed.

(** C6 (the code as it stands). With [full_cov=True], the default,
    [posterior_samples_f] draws nothing and returns no matrix: its call
    to [_raw_predict] raises NameError on the unbound global [tdot],
    whatever the inputs and the number of samples asked for. *)
Theorem posterior_samples_f_full_cov_raises (ExactGaussianInference : Inference F)
  (w : world F) (k : kern F) (X Xnew : ndarray F) (post : Posterior F)
  (wp : which_parts) (M count : nat) :
  fitted w k X post ->
  posterior_shapes X post M ->
  0 < count ->
  posterior_samples_f (gp_namespace ExactGaussianInference) Xnew count wp true w
  = (Raise (NameError "tdot"), w).
Proof.
  intros Hfit Hshapes _.
  apply (posterior_samples_f_unbound_tdot _ w k X Xnew post wp M count Hfit Hshapes).
  reflexivity.
Qed.

(** C5 (the code as it stands). For a model whose likelihood is the
    mixed-noise likelihood, [posterior_samples] raises NameError whether
    or not a noise model is selected: with [full_cov=True] on the global
    [tdot], with [full_cov=False] on the global [Gaussian_Mixed_Noise]
    read by the [isinstance] test of line 164.  It neither reaches the
    assertion on [noise_model] nor returns samples. *)
Theorem posterior_samples_mixed_noise_raises (ExactGaussianInference : Inference F)
  (w : world F) (k : kern F) (X Xnew : ndarray F) (post : Posterior F)
  (wp : which_parts) (l : Likelihood F) (count : nat) (noise_model : option Z) :
  fitted w k X post ->
  posterior_shapes X post 1 ->
  gp_likelihood (self w) = Some l ->
  lik_class l = cls_Gaussian_Mixed_Noise ->
  fst (posterior_samples (gp_namespace ExactGaussianInference) Xnew count wp true
         noise_model w)
  = Raise (NameError "tdot") /\
  fst (posterior_samples (gp_namespace ExactGaussianInference) Xnew count wp false
         noise_model w)
  = Raise (NameError "Gaussian_Mixed_Noise").
Proof.
  intros Hfit Hshapes Hl Hclass. split.
  - unfold posterior_samples. unfold bind at 1.
    rewrite (posterior_samples_f_unbound_tdot (gp_namespace ExactGaussianInference)
               w k X Xnew post wp 1 count Hfit Hshapes eq_refl).
    reflexivity.
  - destruct (posterior_samples_f_diagonal (gp_namespace ExactGaussianInference) w k X Xnew
                post wp count Hfit Hshapes) as (mean & Ysim & _ & Hrun & _).
    unfold posterior_samples. unfold bind at 1. rewrite Hrun.
    unfold bind at 1. unfold attr. cbn [self drawn]. rewrite Hl.
    unfold isinstance. rewrite Hclass. reflexivity.
Qed.

(** C2 (as the code has it). [_raw_predict(Xnew, full_cov=False)]
    neither clips nor validates the variance: on a fitted model whose
    Woodbury vector has [N] rows it always returns, and entry [j] of the
    returned column is exactly [Kdiag(Xnew)[j]] minus the sum of the
    squares of column [j] of [Z], whatever the sign of that
    difference. *)
Theorem raw_predict_variance_unchecked (ns : namespace F) (w : world F) (k : kern F)
  (X Xnew : ndarray F) (post : Posterior F) (wp : which_parts) (M : nat) :
  fitted w k X post ->
  shape (_woodbury_vector post) = [rows X; M] ->
  exists mean variance,
    _raw_predict ns Xnew wp false w = (Return (mean, variance), w) /\
    shape variance = [rows Xnew; 1] /\
    forall j, j < rows Xnew ->
      item2 variance j 0
      = Fsub (item1 (kern_Kdiag k Xnew wp) j)
             (fsum (rows X)
                (fun i => Fmul (item2 (solve_Z post k X Xnew wp) i j)
                               (item2 (solve_Z post k X Xnew wp) i j))).
Proof.
  intros Hfit Hwv.
  eexists. exists (diag_variance post k X Xnew wp).
  split; [| split].
  - rewrite (raw_predict_diag_run ns w k X Xnew post wp Hfit).
    rewrite (np_dot_cross_cov post k X Xnew wp M Hwv). reflexivity.
  - apply shape_diag_variance.
  - intros j Hj. rewrite item2_diag_variance by assumption.
    unfold kern_Kdiag. rewrite item1_tabulate1 by assumption. reflexivity.
Qed.

(* ================================================================= *)
(** ** Inference on a change of parameters *)

Ltac attrs :=
  cbn [self stdout np_random gp_X gp_num_data gp_input_dim gp_Y gp_output_dim gp_kern
       gp_likelihood gp_inference_method gp_K gp_posterior fst snd].

(** C4. When the inference that [parameters_changed] triggers raises,
    the call raises the same exception and the Posterior cached before
    the call is still the one the model holds: no other Posterior has
    been installed.  (The covariance matrix [K] has been refreshed by
    then.) *)
Theorem parameters_changed_failure_keeps_posterior (w : world F) (k : kern F)
  (X Y : ndarray F) (l : Likelihood F) (engine : Inference F) (cached : Posterior F)
  (e : exn) :
  gp_kern (self w) = Some k ->
  gp_X (self w) = Some X ->
  gp_likelihood (self w) = Some l ->
  gp_Y (self w) = Some Y ->
  gp_inference_method (self w) = Some (Some engine) ->
  gp_posterior (self w) = Some cached ->
  inference engine (kern_K k X None all) l Y = Raise e ->
  fst (parameters_changed w) = Raise e /\
  gp_posterior (self (snd (parameters_changed w))) = Some cached /\
  gp_K (self (snd (parameters_changed w))) = Some (kern_K k X None all).
Proof.
  intros Hk HX Hl HY Him Hp Hinf.
  unfold parameters_changed, bind, attr, set_K, modify, with_self, lift.
  rewrite Hk, HX. attrs. rewrite Him. attrs. rewrite Hl. attrs. rewrite HY. attrs.
  rewrite Hinf. attrs. rewrite Hp. auto.
Qed.

(** When the inference returns, its Posterior is the one installed. *)
Lemma parameters_changed_success_installs (w : world F) (k : kern F)
  (X Y : ndarray F) (l : Likelihood F) (engine : Inference F) (p : Posterior F) :
  gp_kern (self w) = Some k ->
  gp_X (self w) = Some X ->
  gp_likelihood (self w) = Some l ->
  gp_Y (self w) = Some Y ->
  gp_inference_method (self w) = Some (Some engine) ->
  inference engine (kern_K k X None all) l Y = Return p ->
  fst (parameters_changed w) = Return tt /\
  gp_posterior (self (snd (parameters_changed w))) = Some p.
Proof.
  intros Hk HX Hl HY Him Hinf.
  unfold parameters_changed, bind, attr, set_K, set_posterior, modify, with_self, lift.
  rewrite Hk, HX. attrs. rewrite Him. attrs. rewrite Hl. attrs. rewrite HY. attrs.
  rewrite Hinf. attrs. auto.
Qed.

Lemma parameters_changed_keeps_inference_method (w : world F) :
  gp_inference_method (self (snd (parameters_changed w)))
  = gp_inference_method (self w) /\
  stdout (snd (parameters_changed w)) = stdout w.
Proof.
  unfold parameters_changed, bind, attr, set_K, set_posterior, modify, with_self, lift,
    raise.
  destruct (gp_kern (self w)); [| auto].
  destruct (gp_X (self w)); [| auto]. attrs.
  destruct (gp_inference_method (self w)) as [[engine|]|]; attrs; auto.
  destruct (gp_likelihood (self w)); attrs; auto.
  destruct (gp_Y (self w)); attrs; auto.
  destruct (inference engine _ _ _); attrs; auto.
Qed.

(* ================================================================= *)
(** ** The constructor *)

(** C9. Constructing a model from a 2-D [X] and a [Y] whose number of
    rows differs from that of [X] fails with AssertionError, the
    InvalidArgument of a shape mismatch (line 37 when [Y] is not 2-D,
    line 39 otherwise), before any inference method or Posterior is
    installed. *)
Theorem init_rejects_row_mismatch (ns : namespace F) (X Y : ndarray F)
  (kernel likelihood : pyobject) (inference_method : option (Inference F))
  (w : world F) :
  ndim X = 2 ->
  rows Y <> rows X ->
  let outcome := __init__ ns X Y kernel likelihood inference_method w in
  fst outcome = Raise (AssertionError "") /\
  raises_kind (fst outcome) InvalidArgument = true /\
  gp_inference_method (self (snd outcome)) = gp_inference_method (self w) /\
  gp_posterior (self (snd outcome)) = gp_posterior (self w).
Proof.
  intros HX Hrows outcome.
  assert (H : exists w', outcome = (Raise (AssertionError ""), w') /\
                gp_inference_method (self w') = gp_inference_method (self w) /\
                gp_posterior (self w') = gp_posterior (self w)).
  { unfold outcome, __init__.
    unfold bind at 1. rewrite HX. cbn [Nat.eqb py_assert ret].
    unfold bind at 1. unfold set_X, modify, with_self.
    unfold bind at 1. unfold set_shape_X, modify, with_self.
    unfold bind at 1.
    destruct (ndim Y =? 2) eqn:HY; cbn [py_assert ret raise]; attrs;
      [| eexists; split; [reflexivity | attrs; auto]].
    unfold bind at 1. unfold set_Y, modify, with_self.
    unfold bind at 1. unfold attr. attrs.
    unfold bind at 1.
    apply Nat.eqb_neq in Hrows. rewrite Hrows. cbn [py_assert raise]. attrs.
    eexists; split; [reflexivity | attrs; auto]. }
  destruct H as (w' & Hout & Him & Hpost). rewrite Hout. attrs. auto.
Qed.

(** The outcome of the constructor once its assertions have passed and
    an engine (or [None]) has been chosen on lines 48-54. *)
Lemma init_run (ns : namespace F) (X Y : ndarray F) (k : kern F) (l : Likelihood F)
  (inference_method : option (Inference F)) (w : world F) :
  ndim X = 2 -> ndim Y = 2 -> rows Y = rows X ->
  let g :=
    {| gp_X := Some X; gp_num_data := Some (rows X); gp_input_dim := Some (cols X);
       gp_Y := Some Y; gp_output_dim := Some (cols Y); gp_kern := Some k;
       gp_likelihood := Some l;
       gp_inference_method := gp_inference_method (self w);
       gp_K := gp_K (self w); gp_posterior := gp_posterior (self w) |} in
  let w1 := {| self := g; stdout := stdout w; np_random := np_random w |} in
  __init__ ns X Y (obj_kern k) (obj_likelihood l) inference_method w
  = bind
      (match inference_method with
       | None =>
           if isinstance l cls_Gaussian
           then ret (Some (exact_gaussian_inference ns))
           else ret None
       | Some _ =>
           ep <- global "expectation_propagation" (ns_expectation_propagation ns) ;;
           print ("defaulting to " ++ " " ++ repr ep ++ " "
                  ++ "for latent function inference") ;;
           ret (Some ep)
       end)
      (fun im => set_inference_method im ;; parameters_changed) w1.
Proof.
  intros HX HY Hrows g w1. unfold __init__.
  unfold bind at 1. rewrite HX. cbn [Nat.eqb py_assert ret].
  unfold bind at 1. unfold set_X, modify, with_self.
  unfold bind at 1. unfold set_shape_X, modify, with_self.
  unfold bind at 1. rewrite HY. cbn [Nat.eqb py_assert ret]. attrs.
  unfold bind at 1. unfold set_Y, modify, with_self.
  unfold bind at 1. unfold attr at 1. attrs.
  unfold bind at 1. rewrite Hrows, Nat.eqb_refl. cbn [py_assert ret]. attrs.
  unfold bind at 1. unfold set_output_dim, modify, with_self. attrs.
  unfold bind at 1. unfold ret at 1.
  unfold bind at 1. unfold set_kern, modify, with_self. attrs.
  unfold bind at 1. unfold ret at 1.
  unfold bind at 1. unfold set_likelihood, modify, with_self. attrs.
  reflexivity.
Qed.

(** C10 (the code as it stands). Lines 52-54 are written to replace an
    engine passed as [inference_method] by the module-level
    [expectation_propagation], but gp.py imports no such name: once the
    assertions of lines 32-45 have passed, every construction with an
    engine raises NameError on line 53.  Line 54 prints nothing, line
    55 assigns nothing: [self.inference_method] is left as it was,
    neither the engine passed nor a default is installed, and no
    Posterior is computed.  The data, the kernel and the likelihood
    have been assigned by then. *)
Theorem init_supplied_engine_raises (ExactGaussianInference : Inference F)
  (X Y : ndarray F) (k : kern F) (l : Likelihood F) (e : Inference F) (w : world F) :
  ndim X = 2 -> ndim Y = 2 -> rows Y = rows X ->
  let outcome :=
    __init__ (gp_namespace ExactGaussianInference) X Y (obj_kern k) (obj_likelihood l)
      (Some e) w in
  let s := self (snd outcome) in
  fst outcome = Raise (NameError "expectation_propagation") /\
  gp_inference_method s = gp_inference_method (self w) /\
  gp_posterior s = gp_posterior (self w) /\
  gp_K s = gp_K (self w) /\
  stdout (snd outcome) = stdout w /\
  gp_X s = Some X /\ gp_Y s = Some Y /\ gp_kern s = Some k /\ gp_likelihood s = Some l.
Proof.
  intros HX HY Hrows outcome s. unfold s, outcome.
  rewrite (init_run (gp_namespace ExactGaussianInference) X Y k l (Some e) w HX HY Hrows).
  cbn [ns_expectation_propagation gp_namespace].
  unfold bind at 1. unfold bind at 1. unfold global, raise. attrs.
  repeat split.
Qed.

Lemma parameters_changed_outcome (w : world F) (k : kern F)
  (X Y : ndarray F) (l : Likelihood F) (engine : Inference F) :
  gp_kern (self w) = Some k ->
  gp_X (self w) = Some X ->
  gp_likelihood (self w) = Some l ->
  gp_Y (self w) = Some Y ->
  gp_inference_method (self w) = Some (Some engine) ->
  fst (parameters_changed w)
  = match inference engine (kern_K k X None all) l Y with
    | Return _ => Return tt
    | Raise x => Raise x
    end.
Proof.
  intros Hk HX Hl HY Him.
  unfold parameters_changed, bind, attr, set_K, set_posterior, modify, with_self, lift.
  rewrite Hk, HX. attrs. rewrite Him. attrs. rewrite Hl. attrs. rewrite HY. attrs.
  destruct (inference engine (kern_K k X None all) l Y); reflexivity.
Qed.

(** When an engine is passed and the module binds
    [expectation_propagation], the constructor installs the module's
    engine, prints the "defaulting to" line, and its outcome is the
    outcome of that engine's inference. *)
Lemma init_defaults_when_bound (ns : namespace F) (X Y : ndarray F)
  (k : kern F) (l : Likelihood F) (e ep : Inference F) (w : world F) :
  ndim X = 2 -> ndim Y = 2 -> rows Y = rows X ->
  ns_expectation_propagation ns = Some ep ->
  let outcome := __init__ ns X Y (obj_kern k) (obj_likelihood l) (Some e) w in
  gp_inference_method (self (snd outcome)) = Some (Some ep) /\
  stdout (snd outcome) = stdout w ++ [defaulting_line ep] /\
  fst outcome
  = match inference ep (kern_K k X None all) l Y with
    | Return _ => Return tt
    | Raise x => Raise x
    end /\
  (raises_kind (fst outcome) Unsupported = true ->
   raises_kind (inference ep (kern_K k X None all) l Y) Unsupported = true).
Proof.
  intros HX HY Hrows Hep outcome.
  assert (Hrun : exists w2,
            outcome = parameters_changed w2 /\
            gp_kern (self w2) = Some k /\ gp_X (self w2) = Some X /\
            gp_likelihood (self w2) = Some l /\ gp_Y (self w2) = Some Y /\
            gp_inference_method (self w2) = Some (Some ep) /\
            stdout w2 = stdout w ++ [defaulting_line ep]).
  { unfold outcome. rewrite (init_run ns X Y k l (Some e) w HX HY Hrows). rewrite Hep.
    unfold bind at 1. unfold bind at 1. unfold global, ret at 1.
    unfold bind at 1. unfold print, modify. attrs. unfold ret at 1.
    unfold bind at 1. unfold set_inference_method, modify, with_self. attrs.
    eexists. split; [reflexivity |]. attrs. repeat split. }
  destruct Hrun as (w2 & Hout & Hk & HX2 & Hl & HY2 & Him & Hstd).
  pose proof (parameters_changed_keeps_inference_method w2) as (Hkeep & Hstdout).
  pose proof (parameters_changed_outcome w2 k X Y l ep Hk HX2 Hl HY2 Him) as Hfst.
  rewrite Hout, Hkeep, Hstdout, Hfst. repeat split; auto.
  destruct (inference ep (kern_K k X None all) l Y); auto.
Qed.

Lemma parameters_changed_without_engine (w : world F) (k : kern F) (X : ndarray F) :
  gp_kern (self w) = Some k ->
  gp_X (self w) = Some X ->
  gp_inference_method (self w) = Some None ->
  fst (parameters_changed w)
  = Raise (AttributeError "'NoneType' object has no attribute 'inference'").
Proof.
  intros Hk HX Him.
  unfold parameters_changed, bind, attr, set_K, modify, with_self, raise.
  rewrite Hk, HX. attrs. rewrite Him. reflexivity.
Qed.

(** How a construction can end: on a failed assertion, on the unbound
    global of line 53, or in the call of [parameters_changed] on line
    60, made on an object whose data, kernel, likelihood and inference
    method have been assigned. *)
Lemma init_outcome_cases (ns : namespace F) (X Y : ndarray F)
  (kernel likelihood : pyobject) (inference_method : option (Inference F))
  (w : world F) :
  exists r w',
    __init__ ns X Y kernel likelihood inference_method w = (r, w') /\
    (r = Raise (AssertionError "") \/
     r = Raise (NameError "expectation_propagation") \/
     exists w2 k l chosen,
       (r, w') = parameters_changed w2 /\
       kernel = obj_kern k /\ likelihood = obj_likelihood l /\
       gp_kern (self w2) = Some k /\ gp_X (self w2) = Some X /\
       gp_likelihood (self w2) = Some l /\ gp_Y (self w2) = Some Y /\
       gp_inference_method (self w2) = Some chosen).
Proof.
  unfold __init__.
  unfold bind at 1.
  destruct (ndim X =? 2); cbn [py_assert ret raise];
    [| do 2 eexists; split; [reflexivity | left; reflexivity]].
  unfold bind at 1. unfold set_X, modify, with_self.
  unfold bind at 1. unfold set_shape_X, modify, with_self.
  unfold bind at 1.
  destruct (ndim Y =? 2); cbn [py_assert ret raise]; attrs;
    [| do 2 eexists; split; [reflexivity | left; reflexivity]].
  unfold bind at 1. unfold set_Y, modify, with_self.
  unfold bind at 1. unfold attr at 1. attrs.
  unfold bind at 1.
  destruct (rows Y =? rows X); cbn [py_assert ret raise]; attrs;
    [| do 2 eexists; split; [reflexivity | left; reflexivity]].
  unfold bind at 1. unfold set_output_dim, modify, with_self. attrs.
  unfold bind at 1.
  destruct kernel as [k | l0 | n0]; try unfold ret at 1; try unfold raise at 1;
    cbv beta iota; try (do 2 eexists; split; [reflexivity | left; reflexivity]).
  unfold bind at 1. unfold set_kern, modify, with_self. attrs.
  unfold bind at 1.
  destruct likelihood as [k0 | l | n0]; try unfold ret at 1; try unfold raise at 1;
    cbv beta iota; try (do 2 eexists; split; [reflexivity | left; reflexivity]).
  unfold bind at 1. unfold set_likelihood, modify, with_self. attrs.
  unfold bind at 1.
  destruct inference_method as [e |].
  - destruct (ns_expectation_propagation ns) as [ep |].
    + unfold bind at 1. unfold global, ret at 1.
      unfold bind at 1. unfold print, modify. attrs. unfold ret at 1.
      unfold bind at 1. unfold set_inference_method, modify, with_self. attrs.
      match goal with
      | |- exists r w', parameters_changed ?w2 = _ /\ _ =>
          exists (fst (parameters_changed w2)), (snd (parameters_changed w2));
          split; [apply surjective_pairing |];
          right; right; exists w2
      end.
      do 3 eexists. split; [symmetry; apply surjective_pairing |]. attrs. repeat split.
    + unfold bind at 1. unfold global, raise.
      do 2 eexists; split; [reflexivity | right; left; reflexivity].
  - destruct (isinstance l cls_Gaussian); unfold ret at 1;
      unfold bind at 1; unfold set_inference_method, modify, with_self; attrs;
      match goal with
      | |- exists r w', parameters_changed ?w2 = _ /\ _ =>
          exists (fst (parameters_changed w2)), (snd (parameters_changed w2));
          split; [apply surjective_pairing |];
          right; right; exists w2
      end;
      do 3 eexists; (split; [symmetry; apply surjective_pairing |]); attrs; repeat split.
Qed.

(** C3 (as the code has it). The constructor has no Unsupported failure
    of its own: whatever is asked for, if a construction ends in an
    error of kind Unsupported, that error was raised by the [inference]
    call of the engine that the constructor had installed, run on
    [K(X)], the likelihood and [Y]; the assertions and the selection of
    lines 48-55 never raise it. *)
Theorem init_has_no_unsupported_path (ns : namespace F) (X Y : ndarray F)
  (kernel likelihood : pyobject) (inference_method : option (Inference F))
  (w : world F) :
  let outcome := __init__ ns X Y kernel likelihood inference_method w in
  raises_kind (fst outcome) Unsupported = true ->
  exists engine k l x,
    kernel = obj_kern k /\ likelihood = obj_likelihood l /\
    gp_inference_method (self (snd outcome)) = Some (Some engine) /\
    fst outcome = Raise x /\
    inference engine (kern_K k X None all) l Y = Raise x /\
    raises_kind (inference engine (kern_K k X None all) l Y) Unsupported = true.
Proof.
  intros outcome Hraised.
  destruct (init_outcome_cases ns X Y kernel likelihood inference_method w)
    as (r & w' & Hrun &
        [Hassert | [Hname |
           (w2 & k & l & chosen & Hout & Hkernel & Hlik & Hk & HX & Hl & HY & Him)]]);
    unfold outcome in *; rewrite Hrun in *; cbn [fst snd] in *.
  - rewrite Hassert in Hraised. discriminate Hraised.
  - rewrite Hname in Hraised. discriminate Hraised.
  - assert (Hr : r = fst (parameters_changed w2)) by (rewrite <- Hout; reflexivity).
    assert (Hw : w' = snd (parameters_changed w2)) by (rewrite <- Hout; reflexivity).
    subst r w'.
    destruct chosen as [engine |].
    + rewrite (parameters_changed_outcome w2 k X Y l engine Hk HX Hl HY Him) in *.
      destruct (inference engine (kern_K k X None all) l Y) as [p | x] eqn:Hinf;
        [discriminate Hraised |].
      exists engine, k, l, x. repeat split; auto.
      * rewrite (proj1 (parameters_changed_keeps_inference_method w2)). exact Him.
      * rewrite Hinf. exact Hraised.
    + rewrite (parameters_changed_without_engine w2 k X Hk HX Him) in Hraised.
      discriminate Hraised.
Qed.

End ModelFacts.

(* ================================================================= *)
(** * The properties on the example models *)

Lemma fitted_linear_world : fitted linear_world linear_kern X_ex posterior_ex.
Proof. repeat split. Qed.

Lemma posterior_ex_shapes : posterior_shapes X_ex posterior_ex 1.
Proof. split; reflexivity. Qed.

Lemma posterior_ex_diagonal (i : nat) :
  i < rows X_ex -> item2 (_woodbury_chol posterior_ex) i i <> F0.
Proof.
  intro Hi. change (rows X_ex) with 2 in Hi.
  destruct i as [| [| i]]; [| | lia]; vm_compute; intro H; discriminate H.
Qed.

(** C1 on the linear model at the new point [1/2]. *)
Lemma raw_predict_diagonal_case_witness :
  fitted linear_world linear_kern X_ex posterior_ex /\
  posterior_shapes X_ex posterior_ex 1 /\
  exists mean variance,
    _raw_predict (gp_namespace exact_engine_ex) Xnew_ex all false linear_world
    = (Return (mean, variance), linear_world) /\
    np_dot (cross_cov linear_kern X_ex Xnew_ex all) (_woodbury_vector posterior_ex)
    = Return mean /\
    shape variance = [1; 1].
Proof.
  split; [exact fitted_linear_world |]. split; [exact posterior_ex_shapes |].
  destruct (@raw_predict_diagonal_case Qc Qc_Scalar Qc_Random Qcft (gp_namespace exact_engine_ex) linear_world
              linear_kern X_ex Xnew_ex posterior_ex all 1
              fitted_linear_world posterior_ex_shapes posterior_ex_diagonal)
    as (mean & variance & Hrun & Hdot & _ & Hshape & _).
  exists mean, variance. repeat split; assumption.
Defined.

Lemma fitted_indefinite_world : fitted indefinite_world indefinite_kern X_ex posterior_ex.
Proof. repeat split. Qed.

(** C2, counterexample. The indefinite model is a modelling error of
    exactly the kind a validation would have to report: its covariance
    matrix [[0, 2], [2, 1]] is not positive semi-definite.  The model
    is the one the constructor builds from the data, and its cached
    Posterior is the exact one: [L . L^T = K + 4 I] and
    [(K + 4 I) . woodbury_vector = Y].  At the training inputs
    themselves [_raw_predict(X, full_cov=False)] returns normally,
    leaves the world as it was, and hands back the variance column
    [-1, 0]: a variance of -1, neither floored nor reported. *)
Lemma raw_predict_negative_variance_unreported :
  entries (kern_K indefinite_kern X_ex None all) = [0; 2; 2; 1]%Q /\
  __init__ (gp_namespace exact_engine_ex) X_ex Y_ex (obj_kern indefinite_kern)
    (obj_likelihood (gaussian_likelihood (qz 4))) None fresh_world
  = (Return tt, indefinite_world) /\
  (exists A b,
     linalg_tdot (_woodbury_chol posterior_ex) = Return A /\
     entries A = [4; 2; 2; 5]%Q /\
     np_dot A (_woodbury_vector posterior_ex) = Return b /\
     entries b = entries Y_ex) /\
  exists mean variance,
    _raw_predict (gp_namespace exact_engine_ex) X_ex all false indefinite_world
    = (Return (mean, variance), indefinite_world) /\
    shape variance = [2; 1] /\
    entries variance = [-1; 0]%Q /\
    (item2 variance 0 0 < 0)%Qc.
Proof.
  split; [vm_compute; reflexivity |].
  split; [reflexivity |].
  split.
  { do 2 eexists. split; [reflexivity |]. split; [vm_compute; reflexivity |].
    split; [reflexivity | vm_compute; reflexivity]. }
  rewrite (raw_predict_diag_run (gp_namespace exact_engine_ex) indefinite_world
             indefinite_kern X_ex X_ex posterior_ex all fitted_indefinite_world).
  rewrite (np_dot_cross_cov posterior_ex indefinite_kern X_ex X_ex all 1 eq_refl).
  eexists. eexists. split; [reflexivity |].
  split; [reflexivity |]. split; vm_compute; reflexivity.
Qed.

(** C2 on the indefinite model at its training inputs. *)
Lemma raw_predict_variance_unchecked_witness :
  fitted indefinite_world indefinite_kern X_ex posterior_ex /\
  shape (_woodbury_vector posterior_ex) = [rows X_ex; 1] /\
  exists mean variance,
    _raw_predict (gp_namespace exact_engine_ex) X_ex all false indefinite_world
    = (Return (mean, variance), indefinite_world) /\
    shape variance = [rows X_ex; 1].
Proof.
  split; [exact fitted_indefinite_world |]. split; [reflexivity |].
  destruct (raw_predict_variance_unchecked (gp_namespace exact_engine_ex) indefinite_world
              indefinite_kern X_ex X_ex posterior_ex all 1
              fitted_indefinite_world eq_refl)
    as (mean & variance & Hrun & Hshape & _).
  exists mean, variance. split; assumption.
Defined.

(** The counterexample to C3 as the specification has it: two
    constructions that ask for something other than exact Gaussian
    inference, neither of which ends in an Unsupported error.  A
    supplied engine stops the constructor with NameError on
    [expectation_propagation]; a non-Gaussian likelihood without engine
    stores [None] and stops with AttributeError in
    [parameters_changed]. *)
Lemma init_raises_no_unsupported_error :
  let supplied := Some (failing_engine "VariationalInference") in
  let kernel := obj_kern linear_kern in
  let gaussian := obj_likelihood (gaussian_likelihood (qz 2)) in
  let run1 := __init__ (gp_namespace exact_engine_ex) X_ex Y_ex kernel gaussian
                supplied fresh_world in
  let run2 := __init__ (gp_namespace exact_engine_ex) X_ex Y_ex kernel
                (obj_likelihood mixed_likelihood) None fresh_world in
  (fst run1 = Raise (NameError "expectation_propagation") /\
   raises_kind (fst run1) Unsupported = false) /\
  (fst run2 = Raise (AttributeError "'NoneType' object has no attribute 'inference'") /\
   raises_kind (fst run2) Unsupported = false).
Proof.
  cbv zeta. repeat split; vm_compute; reflexivity.
Qed.

(** C3 on a default construction whose exact engine does not support
    the request: the Unsupported error is the engine's. *)
Lemma init_has_no_unsupported_path_witness :
  let engine := unsupporting_engine "ExactGaussianInference" in
  let outcome :=
    __init__ (gp_namespace engine) X_ex Y_ex (obj_kern linear_kern)
      (obj_likelihood (gaussian_likelihood (qz 2))) None fresh_world in
  raises_kind (fst outcome) Unsupported = true /\
  exists installed k l x,
    obj_kern linear_kern = obj_kern k /\
    obj_likelihood (gaussian_likelihood (qz 2)) = obj_likelihood l /\
    gp_inference_method (self (snd outcome)) = Some (Some installed) /\
    fst outcome = Raise x /\
    inference installed (kern_K k X_ex None all) l Y_ex = Raise x /\
    raises_kind (inference installed (kern_K k X_ex None all) l Y_ex) Unsupported = true.
Proof.
  cbv zeta. split; [vm_compute; reflexivity |].
  apply (init_has_no_unsupported_path
           (gp_namespace (unsupporting_engine "ExactGaussianInference")) X_ex Y_ex
           (obj_kern linear_kern) (obj_likelihood (gaussian_likelihood (qz 2))) None
           fresh_world).
  vm_compute. reflexivity.
Defined.

(** C10 on the linear data with an engine of the caller's. *)
Lemma init_supplied_engine_raises_witness :
  let outcome :=
    __init__ (gp_namespace exact_engine_ex) X_ex Y_ex (obj_kern linear_kern)
      (obj_likelihood (gaussian_likelihood (qz 2)))
      (Some (answering_engine "VariationalInference" posterior_ex)) fresh_world in
  fst outcome = Raise (NameError "expectation_propagation") /\
  gp_inference_method (self (snd outcome)) = None /\
  gp_posterior (self (snd outcome)) = None /\
  stdout (snd outcome) = [].
Proof.
  destruct (init_supplied_engine_raises exact_engine_ex X_ex Y_ex linear_kern
              (gaussian_likelihood (qz 2))
              (answering_engine "VariationalInference" posterior_ex) fresh_world
              eq_refl eq_refl eq_refl)
    as (Hraise & Him & Hpost & _ & Hout & _).
  repeat split; assumption.
Defined.

(** C4 on the model whose engine fails. *)
Lemma parameters_changed_failure_keeps_posterior_witness :
  fst (parameters_changed failing_world) = Raise (LinAlgError "not positive definite") /\
  gp_posterior (self (snd (parameters_changed failing_world))) = Some posterior_ex /\
  gp_K (self (snd (parameters_changed failing_world)))
  = Some (kern_K linear_kern X_ex None all).
Proof.
  apply (parameters_changed_failure_keeps_posterior failing_world linear_kern X_ex Y_ex
           (gaussian_likelihood (qz 2)) (failing_engine "ExactGaussianInference")
           posterior_ex (LinAlgError "not positive definite"));
    reflexivity.
Defined.

Lemma fitted_mixed_world : fitted mixed_world linear_kern X_ex posterior_ex.
Proof. repeat split. Qed.

(** C5 on the mixed-noise model, with the first noise model selected. *)
Lemma posterior_samples_mixed_noise_raises_witness :
  fst (posterior_samples (gp_namespace exact_engine_ex) Xnew_ex 3 all true (Some 0%Z)
         mixed_world)
  = Raise (NameError "tdot") /\
  fst (posterior_samples (gp_namespace exact_engine_ex) Xnew_ex 3 all false (Some 0%Z)
         mixed_world)
  = Raise (NameError "Gaussian_Mixed_Noise").
Proof.
  apply (posterior_samples_mixed_noise_raises exact_engine_ex mixed_world linear_kern
           X_ex Xnew_ex posterior_ex all mixed_likelihood 3 (Some 0%Z)
           fitted_mixed_world posterior_ex_shapes eq_refl eq_refl).
Defined.

(** With the names bound, the mixed-noise branch behaves as the
    specification describes it: no selector is an AssertionError, a
    valid selector gives an [N_new x count] matrix. *)
Example posterior_samples_mixed_noise_when_bound :
  fst (posterior_samples bound_namespace Xnew_ex 3 all false None mixed_world)
  = Raise (AssertionError "A noise model must be specified.") /\
  exists Ysim,
    fst (posterior_samples bound_namespace Xnew_ex 3 all false (Some 0%Z) mixed_world)
    = Return Ysim /\
    shape Ysim = [1; 3].
Proof.
  split; [vm_compute; reflexivity |].
  eexists. split; [vm_compute; reflexivity | reflexivity].
Qed.

(** C6 on the linear model, ten samples. *)
Lemma posterior_samples_f_full_cov_raises_witness :
  posterior_samples_f (gp_namespace exact_engine_ex) Xnew_ex 10 all true linear_world
  = (Raise (NameError "tdot"), linear_world).
Proof.
  apply (posterior_samples_f_full_cov_raises exact_engine_ex linear_world linear_kern
           X_ex Xnew_ex posterior_ex all 1 10
           fitted_linear_world posterior_ex_shapes).
  lia.
Defined.

(** C7 on the linear model at the single point [1/2]. *)
Lemma raw_predict_full_cov_raises_witness :
  _raw_predict (gp_namespace exact_engine_ex) Xnew_ex all true linear_world
  = (Raise (NameError "tdot"), linear_world).
Proof.
  apply (raw_predict_full_cov_raises exact_engine_ex linear_world linear_kern
           X_ex Xnew_ex posterior_ex all 1
           fitted_linear_world posterior_ex_shapes eq_refl).
Defined.

(** C9 on two training inputs against three outputs. *)
Lemma init_rejects_row_mismatch_witness :
  let outcome :=
    __init__ (gp_namespace exact_engine_ex) X_ex Y_three_rows (obj_kern linear_kern)
      (obj_likelihood (gaussian_likelihood (qz 2))) None fresh_world in
  fst outcome = Raise (AssertionError "") /\
  raises_kind (fst outcome) InvalidArgument = true /\
  gp_inference_method (self (snd outcome)) = None /\
  gp_posterior (self (snd outcome)) = None.
Proof.
  apply (init_rejects_row_mismatch (gp_namespace exact_engine_ex) X_ex Y_three_rows
           (obj_kern linear_kern) (obj_likelihood (gaussian_likelihood (qz 2))) None
           fresh_world).
  - reflexivity.
  - vm_compute. lia.
Defined.

(* ================================================================= *)
(** * Further properties of the methods *)

Section MoreFacts.
Context {F : Type} {SF : Scalar F} {NR : NumpyRandom F}.

Ltac attrs :=
  cbn [self stdout np_random gp_X gp_num_data gp_input_dim gp_Y gp_output_dim gp_kern
       gp_likelihood gp_inference_method gp_K gp_posterior fst snd].

Ltac settle :=
  repeat first
    [ progress attrs
    | match goal with H : _ (self _) = _ |- _ => rewrite H end ].

(** ** Refitting *)

(** The whole effect of [parameters_changed] on an object whose
    kernel, data, likelihood and engine are assigned. *)
Lemma parameters_changed_run (w : world F) (k : kern F) (X Y : ndarray F)
  (l : Likelihood F) (engine : Inference F) :
  gp_kern (self w) = Some k ->
  gp_X (self w) = Some X ->
  gp_likelihood (self w) = Some l ->
  gp_Y (self w) = Some Y ->
  gp_inference_method (self w) = Some (Some engine) ->
  parameters_changed w
  = match inference engine (kern_K k X None all) l Y with
    | Return p =>
        (Return tt, snd (set_posterior p (snd (set_K (kern_K k X None all) w))))
    | Raise e => (Raise e, snd (set_K (kern_K k X None all) w))
    end.
Proof.
  intros Hk HX Hl HY Him.
  unfold parameters_changed, bind, attr, set_K, set_posterior, modify, with_self, lift.
  rewrite Hk, HX. attrs. rewrite Him. attrs. rewrite Hl. attrs. rewrite HY. attrs.
  destruct (inference engine (kern_K k X None all) l Y);
    rewrite ?Hk, ?HX, ?Hl, ?HY, ?Him; reflexivity.
Qed.

(** X1. [parameters_changed] is idempotent: a second call right after
    the first gives the same result and leaves the world the first call
    left, whether the calls return or raise. *)
Theorem parameters_changed_twice (w : world F) :
  let once := parameters_changed w in
  parameters_changed (snd once) = once.
Proof.
  intro once. unfold once.
  destruct (gp_kern (self w)) as [k |] eqn:Hk.
  2:{ unfold parameters_changed, bind, attr. rewrite Hk. attrs. rewrite Hk. reflexivity. }
  destruct (gp_X (self w)) as [X |] eqn:HX.
  2:{ unfold parameters_changed, bind, attr. rewrite Hk, HX. attrs.
      rewrite Hk, HX. reflexivity. }
  destruct (gp_inference_method (self w)) as [[engine |] |] eqn:Him.
  - destruct (gp_likelihood (self w)) as [l |] eqn:Hl.
    + destruct (gp_Y (self w)) as [Y |] eqn:HY.
      * rewrite (parameters_changed_run w k X Y l engine Hk HX Hl HY Him).
        destruct (inference engine (kern_K k X None all) l Y) as [p | e] eqn:Hinf.
        -- attrs.
           rewrite (parameters_changed_run _ k X Y l engine);
             unfold set_posterior, set_K, modify, with_self; attrs; auto.
           rewrite Hinf. reflexivity.
        -- attrs.
           rewrite (parameters_changed_run _ k X Y l engine);
             unfold set_K, modify, with_self; attrs; auto.
           rewrite Hinf. reflexivity.
      * unfold parameters_changed, bind, attr, set_K, modify, with_self. settle.
        reflexivity.
    + unfold parameters_changed, bind, attr, set_K, modify, with_self. settle.
      reflexivity.
  - unfold parameters_changed, bind, attr, set_K, modify, with_self, raise. settle.
    reflexivity.
  - unfold parameters_changed, bind, attr, set_K, modify, with_self. settle.
    reflexivity.
Qed.

(** ** Construction *)

(** The default path of the constructor up to its call of
    [parameters_changed]. *)
Lemma init_default_run (ns : namespace F) (X Y : ndarray F)
  (k : kern F) (l : Likelihood F) (w : world F) :
  ndim X = 2 -> ndim Y = 2 -> rows Y = rows X ->
  lik_class l = cls_Gaussian ->
  exists w2,
    __init__ ns X Y (obj_kern k) (obj_likelihood l) None w = parameters_changed w2 /\
    self w2
    = {| gp_X := Some X; gp_num_data := Some (rows X);
         gp_input_dim := Some (cols X); gp_Y := Some Y;
         gp_output_dim := Some (cols Y); gp_kern := Some k;
         gp_likelihood := Some l;
         gp_inference_method := Some (Some (exact_gaussian_inference ns));
         gp_K := gp_K (self w); gp_posterior := gp_posterior (self w) |} /\
    stdout w2 = stdout w /\ np_random w2 = np_random w.
Proof.
  intros HX HY Hrows Hclass.
  rewrite (init_run ns X Y k l None w HX HY Hrows).
  unfold isinstance. rewrite Hclass. cbn [likelihood_class_eqb].
  unfold bind at 1. unfold ret at 1.
  unfold bind at 1. unfold set_inference_method, modify, with_self. attrs.
  eexists. split; [reflexivity |]. attrs. auto.
Qed.

(** X2. A construction without engine and with a Gaussian likelihood
    passes the assertions, prints nothing, records the shapes of the
    data, installs the exact Gaussian engine of the module and runs
    it once on [K(X)], the likelihood and [Y]: when the engine returns
    a Posterior the construction succeeds and caches it, when it raises
    the construction raises the same exception. *)
Theorem init_gaussian_installs_exact_inference (ns : namespace F) (X Y : ndarray F)
  (k : kern F) (l : Likelihood F) (w : world F) :
  ndim X = 2 -> ndim Y = 2 -> rows Y = rows X ->
  lik_class l = cls_Gaussian ->
  let outcome := __init__ ns X Y (obj_kern k) (obj_likelihood l) None w in
  let s := self (snd outcome) in
  gp_X s = Some X /\ gp_Y s = Some Y /\
  gp_num_data s = Some (rows X) /\ gp_input_dim s = Some (cols X) /\
  gp_output_dim s = Some (cols Y) /\
  gp_kern s = Some k /\ gp_likelihood s = Some l /\
  gp_inference_method s = Some (Some (exact_gaussian_inference ns)) /\
  gp_K s = Some (kern_K k X None all) /\
  stdout (snd outcome) = stdout w /\
  np_random (snd outcome) = np_random w /\
  match inference (exact_gaussian_inference ns) (kern_K k X None all) l Y with
  | Return p => fst outcome = Return tt /\ gp_posterior s = Some p
  | Raise e => fst outcome = Raise e /\ gp_posterior s = gp_posterior (self w)
  end.
Proof.
  intros HX HY Hrows Hclass outcome s.
  destruct (init_default_run ns X Y k l w HX HY Hrows Hclass)
    as (w2 & Hout & Hself & Hstd & Hrng).
  unfold s, outcome. rewrite Hout.
  rewrite (parameters_changed_run w2 k X Y l (exact_gaussian_inference ns))
    by (rewrite Hself; reflexivity).
  destruct (inference (exact_gaussian_inference ns) (kern_K k X None all) l Y);
    unfold set_posterior, set_K, modify, with_self; attrs; rewrite Hself; attrs;
    repeat split; auto.
Qed.

(** X3. With the names that gp.py imports, a construction succeeds only
    on the default path: no engine passed, a Gaussian likelihood, a
    kernel object, and 2-D data with as many rows in [Y] as in [X].
    Passing any engine, or a likelihood of another class, makes the
    constructor raise. *)
Theorem init_success_only_on_default_path (ExactGaussianInference : Inference F)
  (X Y : ndarray F) (kernel likelihood : pyobject)
  (inference_method : option (Inference F)) (w : world F) :
  fst (__init__ (gp_namespace ExactGaussianInference) X Y kernel likelihood
         inference_method w) = Return tt ->
  inference_method = None /\
  ndim X = 2 /\ ndim Y = 2 /\ rows Y = rows X /\
  (exists k, kernel = obj_kern k) /\
  exists l, likelihood = obj_likelihood l /\ lik_class l = cls_Gaussian.
Proof.
  unfold __init__.
  unfold bind at 1.
  destruct (ndim X =? 2) eqn:HX; cbn [py_assert ret raise]; [| discriminate].
  unfold bind at 1. unfold set_X, modify, with_self.
  unfold bind at 1. unfold set_shape_X, modify, with_self.
  unfold bind at 1.
  destruct (ndim Y =? 2) eqn:HY; cbn [py_assert ret raise]; attrs; [| discriminate].
  unfold bind at 1. unfold set_Y, modify, with_self.
  unfold bind at 1. unfold attr at 1. attrs.
  unfold bind at 1.
  destruct (rows Y =? rows X) eqn:Hrows; cbn [py_assert ret raise]; attrs; [| discriminate].
  unfold bind at 1. unfold set_output_dim, modify, with_self. attrs.
  unfold bind at 1.
  destruct kernel as [k | l0 | n0]; try unfold ret at 1; try unfold raise at 1;
    cbv beta iota; try discriminate.
  unfold bind at 1. unfold set_kern, modify, with_self. attrs.
  unfold bind at 1.
  destruct likelihood as [k0 | l | n0]; try unfold ret at 1; try unfold raise at 1;
    cbv beta iota; try discriminate.
  unfold bind at 1. unfold set_likelihood, modify, with_self. attrs.
  unfold bind at 1.
  apply Nat.eqb_eq in HX, HY, Hrows.
  destruct inference_method as [e |].
  - unfold bind at 1. unfold global. cbn [ns_expectation_propagation gp_namespace raise].
    discriminate.
  - unfold isinstance. destruct (lik_class l) eqn:Hclass; cbn [likelihood_class_eqb].
    + intros _. repeat split; auto. * exists k; reflexivity. * exists l; auto.
    + unfold ret at 1. unfold bind at 1. unfold set_inference_method, modify, with_self.
      attrs. intro H.
      rewrite parameters_changed_without_engine with (k := k) (X := X) in H
        by reflexivity.
      discriminate H.
    + unfold ret at 1. unfold bind at 1. unfold set_inference_method, modify, with_self.
      attrs. intro H.
      rewrite parameters_changed_without_engine with (k := k) (X := X) in H
        by reflexivity.
      discriminate H.
Qed.

(** X4. After a successful default construction, [log_likelihood]
    returns the log marginal of the Posterior that the construction
    computed, and reads only. *)
Theorem log_likelihood_after_init (ns : namespace F) (X Y : ndarray F)
  (k : kern F) (l : Likelihood F) (w : world F) (p : Posterior F) :
  ndim X = 2 -> ndim Y = 2 -> rows Y = rows X ->
  lik_class l = cls_Gaussian ->
  inference (exact_gaussian_inference ns) (kern_K k X None all) l Y = Return p ->
  let built := snd (__init__ ns X Y (obj_kern k) (obj_likelihood l) None w) in
  log_likelihood built = (Return (log_marginal p), built).
Proof.
  intros HX HY Hrows Hclass Hinf built.
  destruct (init_default_run ns X Y k l w HX HY Hrows Hclass)
    as (w2 & Hout & Hself & _ & _).
  unfold built. rewrite Hout.
  rewrite (parameters_changed_run w2 k X Y l (exact_gaussian_inference ns))
    by (rewrite Hself; reflexivity).
  rewrite Hinf. unfold set_posterior, set_K, modify, with_self. attrs.
  unfold log_likelihood, bind, attr. attrs. reflexivity.
Qed.

(** ** Prediction through the likelihood *)

(** X5. [predict(Xnew, full_cov=False)] hands the raw mean and the raw
    diagonal variance to [likelihood.predictive_values] together with
    [full_cov] and the keyword arguments, and returns what the
    likelihood returns, an exception included; the model is left as it
    was.  [predict(Xnew, full_cov=True)] raises NameError on [tdot]
    before the likelihood is consulted. *)
Theorem predict_delegates_to_likelihood (ExactGaussianInference : Inference F)
  (w : world F) (k : kern F) (X Xnew : ndarray F) (post : Posterior F)
  (wp : which_parts) (M : nat) (l : Likelihood F) (likelihood_args : kwargs) :
  fitted w k X post ->
  shape (_woodbury_vector post) = [rows X; M] ->
  gp_likelihood (self w) = Some l ->
  let ns := gp_namespace ExactGaussianInference in
  (exists mean,
     np_dot (cross_cov k X Xnew wp) (_woodbury_vector post) = Return mean /\
     predict ns Xnew wp false likelihood_args w
     = (predictive_values l mean (diag_variance post k X Xnew wp) false likelihood_args,
        w)) /\
  predict ns Xnew wp true likelihood_args w = (Raise (NameError "tdot"), w).
Proof.
  intros Hfit Hwv Hl ns.
  pose proof (np_dot_cross_cov post k X Xnew wp M Hwv) as Hdot.
  split.
  - eexists. split; [exact Hdot |].
    unfold predict. unfold bind at 1.
    rewrite (raw_predict_diag_run ns w k X Xnew post wp Hfit), Hdot.
    unfold bind, attr, lift. rewrite Hl. reflexivity.
  - unfold predict. unfold bind at 1.
    rewrite (raw_predict_full_run ns w k X Xnew post wp Hfit), Hdot. reflexivity.
Qed.

(** ** Sampling *)

(** X6. For a model with several output columns the diagonal branch of
    [posterior_samples_f] cannot draw: the flattened mean has
    [N_new * M] entries, the covariance built from the variance column
    is [N_new] by [N_new], and [np.random.multivariate_normal] rejects
    the pair with ValueError.  Nothing is drawn. *)
Theorem posterior_samples_f_multi_output_raises (ns : namespace F) (w : world F)
  (k : kern F) (X Xnew : ndarray F) (post : Posterior F) (wp : which_parts)
  (M count : nat) :
  fitted w k X post ->
  shape (_woodbury_vector post) = [rows X; M] ->
  M <> 1 ->
  0 < rows Xnew ->
  posterior_samples_f ns Xnew count wp false w
  = (Raise (ValueError "mean and cov must have same length"), w).
Proof.
  intros Hfit Hwv HM Hn.
  pose proof (np_dot_cross_cov post k X Xnew wp M Hwv) as Hdot.
  unfold posterior_samples_f. unfold bind at 1.
  rewrite (raw_predict_diag_run ns w k X Xnew post wp Hfit), Hdot.
  assert (Hnd : (ndim (diag_variance post k X Xnew wp) =? 3) = false)
    by (unfold ndim; rewrite shape_diag_variance; reflexivity).
  rewrite Hnd. unfold bind at 1. unfold ret at 1. cbn [negb].
  unfold multivariate_normal.
  change (ndim (flatten ?a)) with 1. cbn [Nat.eqb negb].
  change (ndim (np_diag ?a)) with 2.
  change (rows (np_diag ?a)) with (size a). change (cols (np_diag ?a)) with (size a).
  change (rows (flatten ?a)) with (size a).
  cbn [Nat.eqb negb orb]. rewrite Nat.eqb_refl. cbn [negb].
  change (size (flatten ?a)) with (size a).
  rewrite size_diag_variance, size_tabulate2.
  assert (Hne : (rows Xnew * M =? rows Xnew) = false) by (apply Nat.eqb_neq; nia).
  rewrite Hne. cbn [negb]. unfold bind, raise. reflexivity.
Qed.

Lemma index_in_block (r c i j : nat) : i < r -> j < c -> i * c + j < r * c.
Proof.
  intros Hi Hj. apply Nat.lt_le_trans with (S i * c); [simpl; lia |].
  apply Nat.mul_le_mono_r. lia.
Qed.

(** X7. On a single-output model the diagonal branch of
    [posterior_samples_f] makes one call to the generator and returns
    an [N_new] by [count] matrix: entry [(i, j)] is entry [i] of draw
    [j] from the multivariate normal whose mean is the flattened raw
    mean and whose covariance is the diagonal matrix of the raw
    variance.  The model itself is left as it was. *)
Theorem posterior_samples_f_diagonal_draw (ns : namespace F) (w : world F) (k : kern F)
  (X Xnew : ndarray F) (post : Posterior F) (wp : which_parts) (count : nat) :
  fitted w k X post ->
  posterior_shapes X post 1 ->
  exists mean Ysim,
    np_dot (cross_cov k X Xnew wp) (_woodbury_vector post) = Return mean /\
    posterior_samples_f ns Xnew count wp false w = (Return Ysim, drawn w) /\
    shape Ysim = [rows Xnew; count] /\
    forall i j, i < rows Xnew -> j < count ->
      item2 Ysim i j
      = multivariate_normal_entry (np_random w) (flatten mean)
          (np_diag (flatten (diag_variance post k X Xnew wp))) j i.
Proof.
  intros Hfit Hshapes.
  destruct (posterior_samples_f_diagonal ns w k X Xnew post wp count Hfit Hshapes)
    as (mean & Ysim & Hdot & Hrun & HY & Hshape).
  exists mean, Ysim. repeat split; auto.
  intros i j Hi Hj. rewrite HY, transpose_tabulate2.
  rewrite item2_tabulate2 by assumption. reflexivity.
Qed.

(** X8. For a single-output model with a Gaussian likelihood of one
    noise parameter, [posterior_samples(Xnew, count, full_cov=False)]
    returns an [N_new] by [count] matrix and calls the generator twice:
    entry [(i, j)] is the latent sample of [posterior_samples_f] plus a
    normal draw of mean 0 whose scale is the square root of the noise
    parameter.  [noise_model] is not looked at. *)
Theorem posterior_samples_gaussian_adds_noise (ns : namespace F) (w : world F)
  (k : kern F) (X Xnew : ndarray F) (post : Posterior F) (wp : which_parts)
  (l : Likelihood F) (count : nat) (noise_model : option Z) :
  fitted w k X post ->
  posterior_shapes X post 1 ->
  gp_likelihood (self w) = Some l ->
  lik_class l = cls_Gaussian ->
  shape (_get_params l) = [1] ->
  size (_get_params l) = 1 ->
  exists latent Ysim,
    posterior_samples_f ns Xnew count wp false w = (Return latent, drawn w) /\
    posterior_samples ns Xnew count wp false noise_model w
    = (Return Ysim, drawn (drawn w)) /\
    shape Ysim = [rows Xnew; count] /\
    forall i j, i < rows Xnew -> j < count ->
      item2 Ysim i j
      = Fadd (item2 latent i j)
             (normal_entry (advance (np_random w)) F0
                (np_sqrt (item1 (_get_params l) 0)) i j).
Proof.
  intros Hfit Hshapes Hl Hclass Hpshape Hpsize.
  destruct (posterior_samples_f_diagonal ns w k X Xnew post wp count Hfit Hshapes)
    as (mean & latent & _ & Hrun & HY & Hshape).
  assert (Hsize : size latent = rows Xnew * count).
  { rewrite HY, transpose_tabulate2. apply size_tabulate2. }
  assert (Hrows : rows latent = rows Xnew) by (unfold rows; rewrite Hshape; reflexivity).
  assert (Hcols : cols latent = count) by (unfold cols; rewrite Hshape; reflexivity).
  exists latent. eexists. split; [exact Hrun |].
  unfold posterior_samples. unfold bind at 1. rewrite Hrun.
  unfold bind at 1. unfold attr. cbn [self drawn]. rewrite Hl.
  unfold isinstance. rewrite Hclass. cbn [likelihood_class_eqb].
  unfold bind at 1. unfold normal.
  assert (Hnd : ndim (sqrt_array (_get_params l)) = 1)
    by (unfold ndim, sqrt_array; cbn [shape]; rewrite Hpshape; reflexivity).
  assert (Hsz : size (sqrt_array (_get_params l)) = 1)
    by (unfold size, sqrt_array in *; cbn [data]; rewrite length_map; exact Hpsize).
  rewrite Hnd, Hsz. cbn [Nat.eqb andb orb].
  unfold lift, np_add, elementwise. rewrite Hrows, Hcols, Hshape.
  cbn [shape tabulate2]. rewrite shape_eqb_refl.
  split; [reflexivity |]. split; [reflexivity |].
  intros i j Hi Hj. unfold item2 at 1. cbn [cols shape nth data].
  rewrite nth_zip_with.
  - f_equal.
    + unfold item2, cols. rewrite Hshape. reflexivity.
    + etransitivity;
        [apply (item2_tabulate2 (rows Xnew) count _ i j Hi Hj) |].
      unfold item1, sqrt_array. cbn [data drawn np_random].
      f_equal. unfold size in Hpsize.
      destruct (data (_get_params l)) as [| x rest]; [discriminate Hpsize |].
      reflexivity.
  - fold (size latent). rewrite Hsize. apply index_in_block; assumption.
  - fold (size latent). rewrite Hsize. symmetry. apply size_tabulate2.
Qed.

(** ** Saving and restoring *)

Lemma assign_pop_last (name : string) (d : instance_dict F) (l : list (pyvalue F))
  (v : pyvalue F) :
  assign_pop name (d, l ++ [v]) = (Return tt, (setattr name v d, l)).
Proof.
  unfold assign_pop. cbn [fst snd]. rewrite rev_app_distr. cbn [rev app].
  rewrite rev_involutive. reflexivity.
Qed.

Lemma getattr_returns (d : instance_dict F) (name : string) (v : pyvalue F) :
  getattr d name = Return v -> d name = Some v.
Proof.
  unfold getattr. destruct (d name); intro H; [injection H as ->; reflexivity | discriminate].
Qed.

(** What a successful [getstate] has read. *)
Lemma getstate_returns (fw : framework F) (d : instance_dict F) (st : list (pyvalue F)) :
  getstate fw d = Return st ->
  exists base vX vnum vin vkern vlik vout voff vscale,
    Model_getstate fw d = Return base /\
    st = base ++ [vX; vnum; vin; vkern; vlik; vout; voff; vscale] /\
    d "X"%string = Some vX /\ d "num_data"%string = Some vnum /\
    d "input_dim"%string = Some vin /\ d "kern"%string = Some vkern /\
    d "likelihood"%string = Some vlik /\ d "output_dim"%string = Some vout /\
    d "_Xoffset"%string = Some voff /\ d "_Xscale"%string = Some vscale.
Proof.
  unfold getstate.
  destruct (Model_getstate fw d) as [base |]; [| discriminate].
  destruct (getattr d "X") as [vX |] eqn:H1; [| discriminate].
  destruct (getattr d "num_data") as [vnum |] eqn:H2; [| discriminate].
  destruct (getattr d "input_dim") as [vin |] eqn:H3; [| discriminate].
  destruct (getattr d "kern") as [vkern |] eqn:H4; [| discriminate].
  destruct (getattr d "likelihood") as [vlik |] eqn:H5; [| discriminate].
  destruct (getattr d "output_dim") as [vout |] eqn:H6; [| discriminate].
  destruct (getattr d "_Xoffset") as [voff |] eqn:H7; [| discriminate].
  destruct (getattr d "_Xscale") as [vscale |] eqn:H8; [| discriminate].
  intro H. injection H as <-.
  exists base, vX, vnum, vin, vkern, vlik, vout, voff, vscale.
  repeat split; auto using getattr_returns.
Qed.

(** X9. Round trip. When [getstate] returns a list, [setstate] called on
    any object with that list pops exactly the eight entries that
    [getstate] appended, assigns each to the attribute it was read
    from, leaves every other attribute of the object alone, and hands
    to [Model.setstate] the list that [Model.getstate] had produced. *)
Theorem setstate_after_getstate (fw : framework F) (saved target : instance_dict F)
  (st : list (pyvalue F)) :
  getstate fw saved = Return st ->
  exists base restored,
    Model_getstate fw saved = Return base /\
    length st = length base + 8 /\
    setstate fw (target, st) = Model_setstate fw restored base /\
    (forall name, In name saved_attributes -> restored name = saved name) /\
    (forall name, ~ In name saved_attributes -> restored name = target name).
Proof.
  intro Hget.
  destruct (getstate_returns fw saved st Hget)
    as (base & vX & vnum & vin & vkern & vlik & vout & voff & vscale &
        Hbase & -> & HX & Hnum & Hin & Hkern & Hlik & Hout & Hoff & Hscale).
  exists base. eexists. split; [exact Hbase |].
  split; [rewrite length_app; reflexivity |].
  split.
  - unfold setstate.
    change (base ++ [vX; vnum; vin; vkern; vlik; vout; voff; vscale])
      with (base ++ [vX; vnum; vin; vkern; vlik; vout; voff] ++ [vscale]).
    rewrite app_assoc. unfold bind at 1. rewrite assign_pop_last.
    change (base ++ [vX; vnum; vin; vkern; vlik; vout; voff])
      with (base ++ [vX; vnum; vin; vkern; vlik; vout] ++ [voff]).
    rewrite app_assoc. unfold bind at 1. rewrite assign_pop_last.
    change (base ++ [vX; vnum; vin; vkern; vlik; vout])
      with (base ++ [vX; vnum; vin; vkern; vlik] ++ [vout]).
    rewrite app_assoc. unfold bind at 1. rewrite assign_pop_last.
    change (base ++ [vX; vnum; vin; vkern; vlik])
      with (base ++ [vX; vnum; vin; vkern] ++ [vlik]).
    rewrite app_assoc. unfold bind at 1. rewrite assign_pop_last.
    change (base ++ [vX; vnum; vin; vkern]) with (base ++ [vX; vnum; vin] ++ [vkern]).
    rewrite app_assoc. unfold bind at 1. rewrite assign_pop_last.
    change (base ++ [vX; vnum; vin]) with (base ++ [vX; vnum] ++ [vin]).
    rewrite app_assoc. unfold bind at 1. rewrite assign_pop_last.
    change (base ++ [vX; vnum]) with (base ++ [vX] ++ [vnum]).
    rewrite app_assoc. unfold bind at 1. rewrite assign_pop_last.
    unfold bind at 1. rewrite assign_pop_last.
    cbn [fst snd]. reflexivity.
  - split.
    + intros name Hin'. unfold saved_attributes in Hin'. cbn [In] in Hin'.
      repeat (destruct Hin' as [<- | Hin']; [cbv [setattr String.eqb Ascii.eqb Bool.eqb];
                                              congruence |]).
      contradiction.
    + intros name Hnot. unfold saved_attributes in Hnot. cbn [In] in Hnot.
      unfold setattr.
      repeat match goal with
             | |- context [String.eqb name ?s] =>
                 let E := fresh "E" in
                 destruct (String.eqb_spec name s) as [E | E];
                 [exfalso; apply Hnot; subst name; tauto |]
             end.
      reflexivity.
Qed.

Lemma assign_pop_empty (name : string) (d : instance_dict F) :
  assign_pop name (d, []) = (Raise (IndexError "pop from empty list"), (d, [])).
Proof. reflexivity. Qed.

Lemma assign_pop_rev_cons (name : string) (d : instance_dict F) (v : pyvalue F)
  (r : list (pyvalue F)) :
  assign_pop name (d, rev (v :: r)) = (Return tt, (setattr name v d, rev r)).
Proof. cbn [rev]. apply assign_pop_last. Qed.

(** X10. A list with fewer than eight entries makes [setstate] raise
    IndexError ("pop from empty list") without reaching
    [Model.setstate].  By then the list has been emptied and its
    entries have been assigned, last entry first, to [_Xscale],
    [_Xoffset], [output_dim], ...: the object is left partly restored,
    and its attribute [X] is never reached. *)
Theorem setstate_short_list (fw : framework F) (d : instance_dict F)
  (st : list (pyvalue F)) :
  length st < 8 ->
  exists partly,
    setstate fw (d, st) = (Raise (IndexError "pop from empty list"), (partly, [])) /\
    partly "X"%string = d "X"%string /\
    (forall rest v, st = rest ++ [v] -> partly "_Xscale"%string = Some v) /\
    (forall fw', setstate fw' (d, st) = setstate fw (d, st)).
Proof.
  intro Hlen.
  assert (Hst : st = rev (rev st)) by (symmetry; apply rev_involutive).
  rewrite <- length_rev in Hlen.
  assert (Hlast : forall (rest : list (pyvalue F)) (v a : pyvalue F) (r : list (pyvalue F)),
             rev (a :: r) = rest ++ [v] -> a = v).
  { intros rest v a r H. apply (f_equal (@rev (pyvalue F))) in H.
    rewrite rev_involutive, rev_app_distr in H. cbn in H. congruence. }
  remember (rev st) as r eqn:Hr. clear Hr. subst st.
  destruct r as [| a1 [| a2 [| a3 [| a4 [| a5 [| a6 [| a7 [| a8 r]]]]]]]];
    cbn [length] in Hlen; try lia;
    unfold setstate;
    repeat (unfold bind at 1; rewrite assign_pop_rev_cons);
    unfold bind at 1; change (rev (@nil (pyvalue F))) with (@nil (pyvalue F));
    rewrite assign_pop_empty;
    (eexists; split; [reflexivity |]; split; [reflexivity |]; split;
     [ intros rest v H;
       first [ apply Hlast in H; subst; reflexivity
             | destruct rest; discriminate H ]
     | intro fw'; unfold setstate;
       repeat (unfold bind at 1; rewrite assign_pop_rev_cons);
       unfold bind at 1; change (rev (@nil (pyvalue F))) with (@nil (pyvalue F));
       rewrite assign_pop_empty; reflexivity ]).
Qed.

(** X11. [getstate] returns exactly when the framework's [getstate]
    returns and the object holds all eight attributes [X], [num_data],
    [input_dim], [kern], [likelihood], [output_dim], [_Xoffset] and
    [_Xscale].  In particular an object that holds the six attributes
    assigned by the constructor of gp.py but no [_Xoffset] makes
    [getstate] raise AttributeError on that name. *)
Theorem getstate_needs_all_attributes (fw : framework F) (d : instance_dict F)
  (base : list (pyvalue F)) :
  Model_getstate fw d = Return base ->
  ((exists st, getstate fw d = Return st) <->
   (forall name, In name saved_attributes -> d name <> None)) /\
  ((forall name,
      In name ["X"; "num_data"; "input_dim"; "kern"; "likelihood"; "output_dim"]%string ->
      d name <> None) ->
   d "_Xoffset"%string = None ->
   getstate fw d
   = Raise (AttributeError "'GP' object has no attribute '_Xoffset'")).
Proof.
  intro Hbase. split.
  - split.
    + intros (st & Hget) name Hin.
      destruct (getstate_returns fw d st Hget)
        as (b & vX & vnum & vin & vkern & vlik & vout & voff & vscale &
            _ & _ & HX & Hnum & Hin' & Hkern & Hlik & Hout & Hoff & Hscale).
      unfold saved_attributes in Hin. cbn [In] in Hin.
      repeat (destruct Hin as [<- | Hin]; [congruence |]). contradiction.
    + intro Hall. unfold getstate, getattr. rewrite Hbase.
      assert (H : forall name, In name saved_attributes -> exists v, d name = Some v).
      { intros name Hin. specialize (Hall name Hin).
        destruct (d name) as [v |]; [exists v; reflexivity | contradiction]. }
      unfold saved_attributes in H.
      destruct (H "X"%string) as (v1 & ->); [cbn; tauto |].
      destruct (H "num_data"%string) as (v2 & ->); [cbn; tauto |].
      destruct (H "input_dim"%string) as (v3 & ->); [cbn; tauto |].
      destruct (H "kern"%string) as (v4 & ->); [cbn; tauto |].
      destruct (H "likelihood"%string) as (v5 & ->); [cbn; tauto |].
      destruct (H "output_dim"%string) as (v6 & ->); [cbn; tauto |].
      destruct (H "_Xoffset"%string) as (v7 & ->); [cbn; tauto |].
      destruct (H "_Xscale"%string) as (v8 & ->); [cbn; tauto |].
      eexists. reflexivity.
  - intros Hsix Hoff. unfold getstate, getattr. rewrite Hbase.
    assert (H : forall name,
               In name ["X"; "num_data"; "input_dim"; "kern"; "likelihood";
                        "output_dim"]%string -> exists v, d name = Some v).
    { intros name Hin. specialize (Hsix name Hin).
      destruct (d name) as [v |]; [exists v; reflexivity | contradiction]. }
    destruct (H "X"%string) as (v1 & ->); [cbn; tauto |].
    destruct (H "num_data"%string) as (v2 & ->); [cbn; tauto |].
    destruct (H "input_dim"%string) as (v3 & ->); [cbn; tauto |].
    destruct (H "kern"%string) as (v4 & ->); [cbn; tauto |].
    destruct (H "likelihood"%string) as (v5 & ->); [cbn; tauto |].
    destruct (H "output_dim"%string) as (v6 & ->); [cbn; tauto |].
    rewrite Hoff. reflexivity.
Qed.

(** ** The frame of a plot *)

Lemma filter_split_length (A : Type) (p : A -> bool) (l : list A) :
  length (filter p l) + length (filter (fun x => negb (p x)) l) = length l.
Proof.
  induction l as [| a l IH]; [reflexivity |].
  cbn [filter]. destruct (p a); cbn [negb length]; lia.
Qed.

Lemma in_setdiff1d_arange (n : nat) (fixed : list Z) (i : nat) :
  In i (setdiff1d_arange n fixed) <-> i < n /\ ~ In (Z.of_nat i) fixed.
Proof.
  unfold setdiff1d_arange, arange. rewrite filter_In, in_seq, negb_true_iff.
  split.
  - intros (Hi & Hex). split; [lia |]. intro Hin.
    assert (existsb (Z.eqb (Z.of_nat i)) fixed = true).
    { apply existsb_exists. exists (Z.of_nat i). split; [exact Hin | apply Z.eqb_refl]. }
    congruence.
  - intros (Hi & Hnot). split; [lia |].
    destruct (existsb (Z.eqb (Z.of_nat i)) fixed) eqn:E; [| reflexivity].
    apply existsb_exists in E. destruct E as (z & Hz & Heq).
    apply Z.eqb_eq in Heq. subst z. contradiction.
Qed.

(** Fixing [k] different input dimensions of a model with [n] of them
    leaves [n - k] free. *)
Lemma length_setdiff1d_arange (n : nat) (fixed : list Z) :
  NoDup fixed ->
  (forall z, In z fixed -> (0 <= z < Z.of_nat n)%Z) ->
  length (setdiff1d_arange n fixed) = n - length fixed.
Proof.
  intros Hnodup Hrange.
  assert (Hsplit : length (filter (fun i => existsb (Z.eqb (Z.of_nat i)) fixed) (arange n))
                   + length (setdiff1d_arange n fixed) = n).
  { pose proof (filter_split_length nat
                  (fun i => existsb (Z.eqb (Z.of_nat i)) fixed) (arange n)) as H.
    cbv beta in H. unfold setdiff1d_arange. rewrite H.
    unfold arange. apply length_seq. }
  assert (Hfixed : length (filter (fun i => existsb (Z.eqb (Z.of_nat i)) fixed) (arange n))
                   = length fixed).
  { rewrite <- (length_map Z.of_nat).
    apply Permutation_length. apply NoDup_Permutation.
    - apply Injective_map_NoDup; [intros a b; apply Nat2Z.inj |].
      apply NoDup_filter. apply seq_NoDup.
    - exact Hnodup.
    - intro z. rewrite in_map_iff. split.
      + intros (i & <- & Hi). apply filter_In in Hi. destruct Hi as (_ & Hex).
        apply existsb_exists in Hex. destruct Hex as (z & Hz & Heq).
        apply Z.eqb_eq in Heq. subst z. exact Hz.
      + intro Hz. exists (Z.to_nat z). specialize (Hrange z Hz).
        split; [lia |]. apply filter_In. split.
        * unfold arange. apply in_seq. lia.
        * apply existsb_exists. exists z. split; [exact Hz |]. apply Z.eqb_eq. lia. }
  lia.
Qed.

Lemma setdiff1d_arange_sorted (n : nat) (fixed : list Z) :
  StronglySorted lt (setdiff1d_arange n fixed).
Proof.
  unfold setdiff1d_arange, arange.
  generalize 0 as s. induction n as [| n IH]; intro s; cbn [seq filter].
  - constructor.
  - destruct (negb (existsb (Z.eqb (Z.of_nat s)) fixed)).
    + constructor; [apply IH |].
      apply Forall_forall. intros x Hx. apply filter_In in Hx.
      destruct Hx as (Hx & _). apply in_seq in Hx. lia.
    + apply IH.
Qed.

(** The run of [plot_frame] once the columns are known to be selected
    and the model knows its input dimension. *)
Lemma plot_frame_run (cols : list Z) (fixed_inputs : list (Z * F)) (ax_given : bool)
  (s : plot_state F) (D : nat) :
  cols <> [] ->
  gp_input_dim (self (pl_world s)) = Some D ->
  let s' := if ax_given then s
            else {| pl_world := pl_world s; pl_figures := S (pl_figures s) |} in
  plot_frame (columns cols) fixed_inputs ax_given s
  = match setdiff1d_arange D (map fst fixed_inputs) with
    | [a] => (Return (frame_1D a), s')
    | [a; b] => (Return (frame_2D a b), s')
    | _ => (Raise (NotImplementedError
                     "Cannot define a frame with more than two input dimensions"), s')
    end.
Proof.
  intros Hcols HD s'. unfold plot_frame.
  unfold bind at 1. unfold ret at 1.
  destruct cols as [| c cols]; [contradiction |]. cbn [length Nat.eqb].
  unfold bind at 1. unfold ret at 1.
  unfold bind at 1.
  assert (HD' : gp_input_dim (self (pl_world s')) = Some D)
    by (unfold s'; destruct ax_given; exact HD).
  replace ((if ax_given then ret tt else new_figure) s) with (Return tt, s')
    by (unfold s'; destruct ax_given; reflexivity).
  unfold bind at 1. unfold plot_attr. rewrite HD'.
  destruct (setdiff1d_arange D (map fst fixed_inputs)) as [| a [| b [| c' rest]]];
    reflexivity.
Qed.

(** X12. [plot] with an empty selection of output columns, given as an
    empty list or as ['all'] on a model without output columns, raises
    ValueError ("No data selected for plotting") before anything else
    happens: no figure is created and the model is not touched. *)
Theorem plot_empty_selection_raises (which_data_ycols : data_columns)
  (fixed_inputs : list (Z * F)) (ax_given : bool) (s : plot_state F) :
  which_data_ycols = columns [] \/
  (which_data_ycols = columns_all /\ gp_output_dim (self (pl_world s)) = Some 0) ->
  plot_frame which_data_ycols fixed_inputs ax_given s
  = (Raise (ValueError "No data selected for plotting"), s).
Proof.
  intros [-> | (-> & Hout)]; unfold plot_frame.
  - reflexivity.
  - unfold bind at 1. unfold bind at 1. unfold plot_attr. rewrite Hout. reflexivity.
Qed.

(** X13. [plot] draws only when exactly one or exactly two input
    dimensions are left free.  With [k] different inputs fixed on a
    model of [D] input dimensions and [D] neither [k + 1] nor [k + 2],
    it raises NotImplementedError ("Cannot define a frame with more
    than two input dimensions"), also when every input is fixed and
    none is free; and when no axes were passed it has created a figure
    by then. *)
Theorem plot_rejects_other_dimensions (cols : list Z) (fixed_inputs : list (Z * F))
  (ax_given : bool) (s : plot_state F) (D : nat) :
  cols <> [] ->
  gp_input_dim (self (pl_world s)) = Some D ->
  NoDup (map fst fixed_inputs) ->
  (forall z, In z (map fst fixed_inputs) -> (0 <= z < Z.of_nat D)%Z) ->
  D <> length fixed_inputs + 1 ->
  D <> length fixed_inputs + 2 ->
  plot_frame (columns cols) fixed_inputs ax_given s
  = (Raise (NotImplementedError
              "Cannot define a frame with more than two input dimensions"),
     if ax_given then s
     else {| pl_world := pl_world s; pl_figures := S (pl_figures s) |}).
Proof.
  intros Hcols HD Hnodup Hrange H1 H2.
  rewrite (plot_frame_run cols fixed_inputs ax_given s D Hcols HD).
  pose proof (length_setdiff1d_arange D (map fst fixed_inputs) Hnodup Hrange) as Hlen.
  rewrite length_map in Hlen.
  assert (Hk : length fixed_inputs <= D).
  { rewrite <- (length_map fst fixed_inputs), <- (length_seq D 0),
      <- (length_map Z.to_nat (map fst fixed_inputs)).
    apply NoDup_incl_length;
      [| intros x Hx; apply in_map_iff in Hx; destruct Hx as (z & <- & Hz);
         apply in_seq; specialize (Hrange z Hz); lia].
    apply Injective_map_NoDup_in; [| exact Hnodup].
    intros a b Ha Hb Hab. pose proof (Hrange a Ha). pose proof (Hrange b Hb). lia. }
  destruct (setdiff1d_arange D (map fst fixed_inputs)) as [| a [| b [| c rest]]];
    cbn [length] in Hlen; try reflexivity; lia.
Qed.

(** X14. With [k] different inputs fixed on a model of [D] input
    dimensions, [plot] takes the one-dimensional frame exactly when
    [D = k + 1] and the two-dimensional frame exactly when
    [D = k + 2]; the dimensions it plots against are the ones that are
    not fixed, in increasing order. *)
Theorem plot_frame_by_free_dimensions (cols : list Z) (fixed_inputs : list (Z * F))
  (ax_given : bool) (s : plot_state F) (D : nat) :
  cols <> [] ->
  gp_input_dim (self (pl_world s)) = Some D ->
  NoDup (map fst fixed_inputs) ->
  (forall z, In z (map fst fixed_inputs) -> (0 <= z < Z.of_nat D)%Z) ->
  let fixed i := In (Z.of_nat i) (map fst fixed_inputs) in
  let run := plot_frame (columns cols) fixed_inputs ax_given s in
  (D = length fixed_inputs + 1 ->
   exists a, fst run = Return (frame_1D a) /\ a < D /\ ~ fixed a) /\
  (D = length fixed_inputs + 2 ->
   exists a b, fst run = Return (frame_2D a b) /\
               a < b /\ b < D /\ ~ fixed a /\ ~ fixed b).
Proof.
  intros Hcols HD Hnodup Hrange fixed run.
  unfold run. rewrite (plot_frame_run cols fixed_inputs ax_given s D Hcols HD).
  pose proof (length_setdiff1d_arange D (map fst fixed_inputs) Hnodup Hrange) as Hlen.
  rewrite length_map in Hlen.
  pose proof (in_setdiff1d_arange D (map fst fixed_inputs)) as Hin.
  pose proof (setdiff1d_arange_sorted D (map fst fixed_inputs)) as Hsorted.
  destruct (setdiff1d_arange D (map fst fixed_inputs)) as [| a [| b [| c rest]]];
    cbn [length] in Hlen; (split; intro HDk; try lia).
  - exists a. split; [reflexivity |]. apply Hin. left; reflexivity.
  - exists a, b. split; [reflexivity |].
    assert (Ha : a < D /\ ~ fixed a) by (apply Hin; left; reflexivity).
    assert (Hb : b < D /\ ~ fixed b) by (apply Hin; right; left; reflexivity).
    apply Sorted.StronglySorted_inv in Hsorted. destruct Hsorted as (_ & Hall).
    apply Forall_inv in Hall. tauto.
Qed.

End MoreFacts.

(* ================================================================= *)
(** * The further properties on the example models *)

(** X2: the default construction on the linear data. *)
Lemma init_gaussian_installs_exact_inference_witness :
  let outcome :=
    __init__ (gp_namespace exact_engine_ex) X_ex Y_ex (obj_kern linear_kern)
      (obj_likelihood (gaussian_likelihood (qz 2))) None fresh_world in
  fst outcome = Return tt /\
  gp_posterior (self (snd outcome)) = Some posterior_ex /\
  gp_inference_method (self (snd outcome)) = Some (Some exact_engine_ex) /\
  stdout (snd outcome) = [].
Proof.
  intro outcome.
  destruct (init_gaussian_installs_exact_inference (gp_namespace exact_engine_ex)
              X_ex Y_ex linear_kern (gaussian_likelihood (qz 2)) fresh_world
              eq_refl eq_refl eq_refl eq_refl)
    as (_ & _ & _ & _ & _ & _ & _ & Him & _ & Hout & _ & Hret & Hpost).
  repeat split; assumption.
Defined.

(** X3 on the same construction, which succeeds. *)
Lemma init_success_only_on_default_path_witness :
  @None (Inference Qc) = None /\
  ndim X_ex = 2 /\ ndim Y_ex = 2 /\ rows Y_ex = rows X_ex /\
  (exists k, obj_kern linear_kern = obj_kern k) /\
  exists l, obj_likelihood (gaussian_likelihood (qz 2)) = obj_likelihood l /\
            lik_class l = cls_Gaussian.
Proof.
  apply (init_success_only_on_default_path exact_engine_ex X_ex Y_ex
           (obj_kern linear_kern) (obj_likelihood (gaussian_likelihood (qz 2)))
           None fresh_world).
  vm_compute. reflexivity.
Defined.

(** X4 on the same construction. *)
Lemma log_likelihood_after_init_witness :
  let built :=
    snd (__init__ (gp_namespace exact_engine_ex) X_ex Y_ex (obj_kern linear_kern)
           (obj_likelihood (gaussian_likelihood (qz 2))) None fresh_world) in
  log_likelihood built = (Return (log_marginal posterior_ex), built).
Proof.
  apply (log_likelihood_after_init (gp_namespace exact_engine_ex) X_ex Y_ex
           linear_kern (gaussian_likelihood (qz 2)) fresh_world posterior_ex
           eq_refl eq_refl eq_refl eq_refl eq_refl).
Defined.

(** X5 on the linear model at the new point [1/2]. *)
Lemma predict_delegates_to_likelihood_witness :
  (exists mean,
     np_dot (cross_cov linear_kern X_ex Xnew_ex all) (_woodbury_vector posterior_ex)
     = Return mean /\
     predict (gp_namespace exact_engine_ex) Xnew_ex all false [] linear_world
     = (predictive_values (gaussian_likelihood (qz 2)) mean
          (diag_variance posterior_ex linear_kern X_ex Xnew_ex all) false [],
        linear_world)) /\
  predict (gp_namespace exact_engine_ex) Xnew_ex all true [] linear_world
  = (Raise (NameError "tdot"), linear_world).
Proof.
  apply (predict_delegates_to_likelihood exact_engine_ex linear_world linear_kern
           X_ex Xnew_ex posterior_ex all 1 (gaussian_likelihood (qz 2)) []
           fitted_linear_world eq_refl eq_refl).
Defined.

Lemma fitted_two_output_world :
  fitted two_output_world linear_kern X_ex two_output_posterior.
Proof. repeat split. Qed.

(** X6 on the model of two output columns. *)
Lemma posterior_samples_f_multi_output_raises_witness :
  posterior_samples_f (gp_namespace exact_engine_ex) Xnew_ex 3 all false two_output_world
  = (Raise (ValueError "mean and cov must have same length"), two_output_world).
Proof.
  apply (posterior_samples_f_multi_output_raises (gp_namespace exact_engine_ex)
           two_output_world linear_kern X_ex Xnew_ex two_output_posterior all 2 3
           fitted_two_output_world eq_refl).
  - lia.
  - vm_compute. lia.
Defined.

(** X7 on the linear model, three samples. *)
Lemma posterior_samples_f_diagonal_draw_witness :
  exists Ysim,
    posterior_samples_f (gp_namespace exact_engine_ex) Xnew_ex 3 all false linear_world
    = (Return Ysim, drawn linear_world) /\
    shape Ysim = [1; 3].
Proof.
  destruct (posterior_samples_f_diagonal_draw (gp_namespace exact_engine_ex)
              linear_world linear_kern X_ex Xnew_ex posterior_ex all 3
              fitted_linear_world posterior_ex_shapes)
    as (mean & Ysim & _ & Hrun & Hshape & _).
  exists Ysim. split; assumption.
Defined.

(** X8 on the linear model, three samples. *)
Lemma posterior_samples_gaussian_adds_noise_witness :
  exists Ysim,
    posterior_samples (gp_namespace exact_engine_ex) Xnew_ex 3 all false None
      linear_world
    = (Return Ysim, drawn (drawn linear_world)) /\
    shape Ysim = [1; 3].
Proof.
  destruct (posterior_samples_gaussian_adds_noise (gp_namespace exact_engine_ex)
              linear_world linear_kern X_ex Xnew_ex posterior_ex all
              (gaussian_likelihood (qz 2)) 3 None
              fitted_linear_world posterior_ex_shapes eq_refl eq_refl eq_refl eq_refl)
    as (latent & Ysim & _ & Hrun & Hshape & _).
  exists Ysim. split; assumption.
Defined.

(** X9: the state of [saved_dict] restored into an empty object. *)
Lemma setstate_after_getstate_witness :
  exists st base restored,
    getstate framework_ex saved_dict = Return st /\
    Model_getstate framework_ex saved_dict = Return base /\
    length st = length base + 8 /\
    setstate framework_ex (empty_dict, st) = Model_setstate framework_ex restored base /\
    restored "kern"%string = Some (py_kern linear_kern).
Proof.
  eexists.
  destruct (setstate_after_getstate framework_ex saved_dict empty_dict _ eq_refl)
    as (base & restored & Hbase & Hlen & Hset & Hsaved & _).
  exists base, restored. split; [reflexivity |]. repeat split; try assumption.
  rewrite (Hsaved "kern"%string); [reflexivity |].
  unfold saved_attributes. cbn [In]. tauto.
Defined.

(** X10 on a list of two entries. *)
Lemma setstate_short_list_witness :
  exists partly,
    setstate framework_ex (empty_dict, [py_int 2; py_int 1])
    = (Raise (IndexError "pop from empty list"), (partly, [])) /\
    partly "X"%string = None /\
    partly "_Xscale"%string = Some (py_int 1).
Proof.
  destruct (setstate_short_list framework_ex empty_dict [py_int 2; py_int 1])
    as (partly & Hrun & HX & Hlast & _).
  - cbn [length]. lia.
  - exists partly. split; [exact Hrun |]. split; [exact HX |].
    apply (Hlast [py_int 2] (py_int 1)). reflexivity.
Defined.

(** X11 on the object that holds the six attributes of the constructor. *)
Lemma getstate_needs_all_attributes_witness :
  getstate framework_ex constructed_dict
  = Raise (AttributeError "'GP' object has no attribute '_Xoffset'").
Proof.
  apply (proj2 (getstate_needs_all_attributes framework_ex constructed_dict
                  [py_other "parameters"] eq_refl)).
  - intros name Hin. cbn [In] in Hin.
    repeat (destruct Hin as [<- | Hin]; [intro H; discriminate H |]).
    contradiction.
  - reflexivity.
Defined.

(** X12 on an empty list of columns. *)
Lemma plot_empty_selection_raises_witness :
  plot_frame (columns []) [] false (plot_state_ex three_input_model)
  = (Raise (ValueError "No data selected for plotting"), plot_state_ex three_input_model).
Proof.
  apply (plot_empty_selection_raises (columns []) [] false
           (plot_state_ex three_input_model)).
  left. reflexivity.
Defined.

(** X13 on three input dimensions, none fixed. *)
Lemma plot_rejects_other_dimensions_witness :
  plot_frame (columns [0%Z]) [] false (plot_state_ex three_input_model)
  = (Raise (NotImplementedError
              "Cannot define a frame with more than two input dimensions"),
     {| pl_world := world_ex three_input_model; pl_figures := 1 |}).
Proof.
  apply (plot_rejects_other_dimensions [0%Z] [] false (plot_state_ex three_input_model) 3).
  - intro H. discriminate H.
  - reflexivity.
  - constructor.
  - intros z Hz. destruct Hz.
  - cbn [length]. lia.
  - cbn [length]. lia.
Defined.

(** X14 on three input dimensions, the middle one fixed. *)
Lemma plot_frame_by_free_dimensions_witness :
  exists a b,
    fst (plot_frame (columns [0%Z]) [(1%Z, qz 0)] false (plot_state_ex three_input_model))
    = Return (frame_2D a b) /\
    a < b /\ b < 3.
Proof.
  destruct (plot_frame_by_free_dimensions [0%Z] [(1%Z, qz 0)] false
              (plot_state_ex three_input_model) 3) as (_ & Htwo).
  - intro H. discriminate H.
  - reflexivity.
  - repeat constructor. intro H. destruct H.
  - intros z Hz. cbn [map fst In] in Hz. destruct Hz as [<- | Hz]; [lia | destruct Hz].
  - destruct (Htwo eq_refl) as (a & b & Hrun & Hab & Hb & _).
    exists a, b. repeat split; assumption.
Defined.
